(** * Postr: the Twitter adapter, its stream listener and the Tk front end

    A shallow embedding of [postr/twitter_postr.py] and of the posting
    actions of [postr/main2.py], with the properties of the adapter that
    the specification states.

    Python code runs in a state-and-exception monad over a [world]: the
    remote service behind [self.api], the standard output, the pauses
    taken with [time.sleep], the file system and the Tk widgets.  The
    vendor client (tweepy's [API] object), [json.loads] and the inherited
    [user_info] are not part of the repository: they are parameters, and
    so are the two ways in which the platform can refuse a file, a path
    that [open] cannot open and a text that the locale cannot encode. *)

From Stdlib Require Import ZArith List String Ascii Bool Lia.
From stdpp Require Import base gmap strings list pretty.

Local Set Warnings "-register-all".
Local Open Scope string_scope.
Local Open Scope list_scope.
Local Open Scope Z_scope.

(** ** Python values, exceptions and results *)

Module Py.

(** The exception classes that occur in the modelled code.  The last
    three derive from [BaseException] only. *)
Inductive exn_class :=
| KeyError | TypeError | IndexError | ValueError | JSONDecodeError
| OSError | IsADirectoryError | AttributeError | TweepError | TclError
| UnicodeEncodeError
| KeyboardInterrupt | SystemExit | GeneratorExit.

(** An exception instance: its class and the text [str(e)] gives. *)
Record exn := Exn { exn_cls : exn_class; exn_str : string }.

(** [isinstance(e, Exception)] *)
Definition is_Exception (e : exn) : bool :=
  match exn_cls e with
  | KeyboardInterrupt | SystemExit | GeneratorExit => false
  | _ => true
  end.

(** [isinstance(e, BaseException)] *)
Definition is_BaseException (e : exn) : bool := true.

(** What a call does: it returns a value or raises. *)
Inductive result (A : Type) :=
| Return (a : A)
| Raise (e : exn).
Arguments Return {A} a.
Arguments Raise {A} e.

Definition raised {A} (r : result A) : bool :=
  match r with Raise _ => true | Return _ => false end.

(** The values [json.loads] produces. *)
Inductive json :=
| JNone
| JBool (b : bool)
| JInt (n : Z)
| JFloat (lexeme : string)
| JStr (s : string)
| JList (l : list json)
| JDict (items : list (string * json)).

(** The type name used in error messages, [type(v).__name__]. *)
Definition type_name (v : json) : string :=
  match v with
  | JNone => "NoneType"
  | JBool _ => "bool"
  | JInt _ => "int"
  | JFloat _ => "float"
  | JStr _ => "str"
  | JList _ => "list"
  | JDict _ => "dict"
  end.

(** A dict built from [items] in order: a later item with the same key
    replaces an earlier one, so the lookup takes the last. *)
Fixpoint dict_get {A} (items : list (string * A)) (key : string) : option A :=
  match items with
  | [] => None
  | (k, v) :: rest =>
      match dict_get rest key with
      | Some v' => Some v'
      | None => if String.eqb k key then Some v else None
      end
  end.

(** The digit of a number below 16, in lower case. *)
Definition hex_digit (n : N) : ascii :=
  match n with
  | 0%N => "0" | 1%N => "1" | 2%N => "2" | 3%N => "3"
  | 4%N => "4" | 5%N => "5" | 6%N => "6" | 7%N => "7"
  | 8%N => "8" | 9%N => "9" | 10%N => "a" | 11%N => "b"
  | 12%N => "c" | 13%N => "d" | 14%N => "e" | _ => "f"
  end%char.

Definition backslash : ascii := "092"%char.
Definition single_quote : ascii := "039"%char.
Definition double_quote : ascii := "034"%char.

(** [c in s] for a character. *)
Fixpoint has_char (c : ascii) (s : string) : bool :=
  match s with
  | EmptyString => false
  | String c' s' => Ascii.eqb c' c || has_char c s'
  end.

(** The escape of the code point [n]: a backslash, [x] and two digits. *)
Definition hex_escape (n : N) : string :=
  String backslash
    (String "x" (String (hex_digit (n / 16)) (String (hex_digit (n mod 16))
       EmptyString))).

(** What [repr] shows for one character between quotes [q].  Of the code
    points from 127 to 255, those up to 160 and 173 are not printable. *)
Definition repr_char (q c : ascii) : string :=
  let n := N_of_ascii c in
  if Ascii.eqb c q || Ascii.eqb c backslash
  then String backslash (String c EmptyString)
  else if (n =? 9)%N then String backslash "t"
  else if (n =? 10)%N then String backslash "n"
  else if (n =? 13)%N then String backslash "r"
  else if (n <? 32)%N || (n =? 127)%N then hex_escape n
  else if (n <? 127)%N then String c EmptyString
  else if (n <? 161)%N || (n =? 173)%N then hex_escape n
  else String c EmptyString.

Fixpoint repr_chars (q : ascii) (s : string) : string :=
  match s with
  | EmptyString => String q EmptyString
  | String c s' => repr_char q c +:+ repr_chars q s'
  end.

(** [repr(s)] of a string: between single quotes, or between double
    quotes when the text holds a single quote and no double one; the
    quote in use and the backslash are escaped, and so is what cannot be
    printed. *)
Definition quote (s : string) : string :=
  let q := if has_char single_quote s && negb (has_char double_quote s)
           then double_quote else single_quote in
  String q (repr_chars q s).

(** [v[key]] for a string key. *)
Definition getitem (v : json) (key : string) : result json :=
  match v with
  | JDict items =>
      match dict_get items key with
      | Some x => Return x
      | None => Raise (Exn KeyError (quote key))
      end
  | JList _ =>
      Raise (Exn TypeError "list indices must be integers or slices, not str")
  | JStr _ =>
      Raise (Exn TypeError "string indices must be integers")
  | _ =>
      Raise (Exn TypeError (quote (type_name v) +:+ " object is not subscriptable"))
  end.

(** [l[0]] on a list. *)
Definition first {A} (l : list A) : result A :=
  match l with
  | x :: _ => Return x
  | [] => Raise (Exn IndexError "list index out of range")
  end.

(** Characters are code points below 256; [str.isspace] holds there of
    9 to 13, 28 to 32, 133 and 160. *)
Definition isspace (c : ascii) : bool :=
  let n := Z.of_N (N_of_ascii c) in
  ((9 <=? n) && (n <=? 13)) || ((28 <=? n) && (n <=? 32))
  || (n =? 133) || (n =? 160).

Fixpoint lstrip (s : string) : string :=
  match s with
  | String c s' => if isspace c then lstrip s' else s
  | EmptyString => EmptyString
  end.

Fixpoint rstrip (s : string) : string :=
  match s with
  | String c s' =>
      match rstrip s' with
      | EmptyString => if isspace c then EmptyString else String c EmptyString
      | r => String c r
      end
  | EmptyString => EmptyString
  end.

(** [s.strip()] *)
Definition strip (s : string) : string := rstrip (lstrip s).

(** Truth value of a string: [not text] holds of the empty string only. *)
Definition truthy (s : string) : bool :=
  match s with EmptyString => false | _ => true end.

End Py.
Export Py.

(** ** The world the program runs in *)

(** What tweepy hands back: the fields the adapter reads. *)
Record user := User {
  user_id : Z;
  screen_name : string;
  description : string
}.

Record status := Status {
  status_id : Z;
  favorite_count : Z;
  retweet_count : Z
}.

(** The run of [Cursor(...).items()]: the items it yields, in order, and
    how the iteration ends, by exhaustion or by an exception raised while
    a page is fetched.  A run is finite: a cursor that yields for ever is
    not considered. *)
Inductive cursor :=
| Exhausted
| Broken (e : exn)
| Yield (item : user) (rest : cursor).

(** A cursor that yields [items] and is then exhausted. *)
Fixpoint cursor_of (items : list user) : cursor :=
  match items with
  | [] => Exhausted
  | item :: rest => Yield item (cursor_of rest)
  end.

(** A cursor that yields [items] and then breaks with [e]. *)
Fixpoint cursor_broken (items : list user) (e : exn) : cursor :=
  match items with
  | [] => Broken e
  | item :: rest => Yield item (cursor_broken rest e)
  end.

(** Calls made on [self.api].  The world records them in order; the
    program never reads that record, the statements do. *)
Inductive vendor_call :=
| c_update_status (status : string)
| c_update_with_media (filename status : string)
| c_destroy_status (post_id : string)
| c_followers (screen_name : string)
| c_update_profile_description (message : string)
| c_update_profile_name (new_name : string)
| c_me
| c_user_timeline (id count : Z)
| c_get_status (tweet_id : Z).

(** Methods of the adapter entered, recorded in the same way. *)
Inductive adapter_call :=
| a_post_text (text : string)
| a_post_video (url text : string)
| a_post_photo (url text : string)
| a_get_user_followers (text : string)
| a_remove_post (post_id : string)
| a_update_bio (message : string)
| a_update_name (new_name : string)
| a_username
| a_id
| a_bio
| a_get_user_likes
| a_last_tweet
| a_latest_favorites
| a_favorites_on (tweet_id : Z)
| a_latest_retweets
| a_retweets_on (tweet_id : Z).

(** A path of the file system names a regular file or a directory.
    Permissions and missing parent directories are left out. *)
Inductive fnode :=
| File (content : string)
| Dir.

(** The Tk widgets of [GUI] that the posting actions read and write:
    the content of the text box, the selected rows of the list box and
    the two [StringVar]s. *)
Record widgets := Widgets {
  text_box : string;
  api_box : list Z;
  io_error : string;
  filepath : string
}.

Record world (V : Type) := World {
  vendor : V;
  vendor_calls : list vendor_call;
  adapter_calls : list adapter_call;
  stdout : list string;
  sleeps : list Z;
  files : gmap string fnode;
  tk : widgets
}.
Arguments World {V}.
Arguments vendor {V}.
Arguments vendor_calls {V}.
Arguments adapter_calls {V}.
Arguments stdout {V}.
Arguments sleeps {V}.
Arguments files {V}.
Arguments tk {V}.

(** ** The monad of Python code: state and exceptions *)

Definition M (V A : Type) : Type := world V -> result A * world V.

Definition ret {V A} (a : A) : M V A := fun w => (Return a, w).

Definition raise {V A} (e : exn) : M V A := fun w => (Raise e, w).

Definition bind {V A B} (m : M V A) (k : A -> M V B) : M V B :=
  fun w =>
    match m w with
    | (Return a, w') => k a w'
    | (Raise e, w') => (Raise e, w')
    end.

Notation "x <- m ;; k" := (bind m (fun x => k))
  (at level 100, m at next level, right associativity).
Notation "m ;; k" := (bind m (fun _ => k))
  (at level 100, right associativity).

(** [try: body except C as e: handler e], where [catches] is the test
    [isinstance(e, C)].  The state reached when the exception was raised
    is kept. *)
Definition try_except {V A} (body : M V A) (catches : exn -> bool)
    (handler : exn -> M V A) : M V A :=
  fun w =>
    match body w with
    | (Return a, w') => (Return a, w')
    | (Raise e, w') => if catches e then handler e w' else (Raise e, w')
    end.

(** [for x in l: body x] *)
Fixpoint for_each {V A} (l : list A) (body : A -> M V unit) : M V unit :=
  match l with
  | [] => ret tt
  | x :: rest => body x ;; for_each rest body
  end.

(** Lift a result that needs no state. *)
Definition lift {V A} (r : result A) : M V A := fun w => (r, w).

(** [print(line)] *)
Definition print {V} (line : string) : M V unit :=
  fun w => (Return tt,
            World (vendor w) (vendor_calls w) (adapter_calls w)
                  (stdout w ++ [line]) (sleeps w) (files w) (tk w)).

(** [time.sleep(secs)] *)
Definition sleep {V} (secs : Z) : M V unit :=
  fun w => (Return tt,
            World (vendor w) (vendor_calls w) (adapter_calls w)
                  (stdout w) (sleeps w ++ [secs]) (files w) (tk w)).

(** Entering a method of the adapter. *)
Definition enter {V} (a : adapter_call) : M V unit :=
  fun w => (Return tt,
            World (vendor w) (vendor_calls w) (adapter_calls w ++ [a])
                  (stdout w) (sleeps w) (files w) (tk w)).

(** A call on [self.api]: it is recorded, then the service answers and
    moves to its next state. *)
Definition call_api {V A} (c : vendor_call) (f : V -> A * V) : M V A :=
  fun w =>
    let (a, v') := f (vendor w) in
    (Return a,
     World v' (vendor_calls w ++ [c]) (adapter_calls w)
           (stdout w) (sleeps w) (files w) (tk w)).

Definition call_vendor {V A} (c : vendor_call) (f : V -> result A * V) : M V A :=
  r <- call_api c f ;; lift r.

Definition set_files {V} (fs : gmap string fnode) : M V unit :=
  fun w => (Return tt,
            World (vendor w) (vendor_calls w) (adapter_calls w)
                  (stdout w) (sleeps w) fs (tk w)).

Definition set_tk {V} (t : widgets) : M V unit :=
  fun w => (Return tt,
            World (vendor w) (vendor_calls w) (adapter_calls w)
                  (stdout w) (sleeps w) (files w) t).

Definition get_tk {V} : M V widgets := fun w => (Return (tk w), w).
Definition get_files {V} : M V (gmap string fnode) := fun w => (Return (files w), w).

(** ** The vendor client, [tweepy.api.API] *)

Record API (V : Type) := {
  update_status : string -> V -> result unit * V;
  update_with_media : string -> string -> V -> result unit * V;
  destroy_status : string -> V -> result unit * V;
  followers : string -> V -> cursor * V;
  update_profile_description : string -> V -> result unit * V;
  update_profile_name : string -> V -> result unit * V;
  me : V -> result user * V;
  user_timeline : Z -> Z -> V -> result (list status) * V;
  get_status : Z -> V -> result status * V
}.
Arguments update_status {V}.
Arguments update_with_media {V}.
Arguments destroy_status {V}.
Arguments followers {V}.
Arguments update_profile_description {V}.
Arguments update_profile_name {V}.
Arguments me {V}.
Arguments user_timeline {V}.
Arguments get_status {V}.

(** ** [postr/twitter_postr.py]: class [Twitter] *)

Module Twitter.
Section Adapter.

Context {V : Type}.

(** [self.api] *)
Variable api : API V.

(** [self.user_info()]: the class does not define it and the base class
    [ApiInterface] is not in the repository; it is taken to answer with a
    dict of strings, or to raise. *)
Variable user_info : M V (list (string * string)).

(** [def post_text(self, text)] *)
Definition post_text (text : string) : M V bool :=
  enter (a_post_text text) ;;
  try_except
    (call_vendor (c_update_status text) (update_status api text) ;;
     ret true)
    is_BaseException
    (fun e => print (exn_str e) ;; ret false).

(** [def post_video(self, url, text)] *)
Definition post_video (url text : string) : M V bool :=
  enter (a_post_video url text) ;;
  ret false.

(** [def post_photo(self, url, text)] *)
Definition post_photo (url text : string) : M V bool :=
  enter (a_post_photo url text) ;;
  try_except
    (call_vendor (c_update_with_media url text) (update_with_media api url text) ;;
     ret true)
    is_BaseException
    (fun e => print (exn_str e) ;; ret false).

(** The body of the [for follower in Cursor(...).items()] loop, run over
    what the cursor yields; [my_followers] and [i] are the two locals. *)
Fixpoint followers_loop (c : cursor) (my_followers : list string) (i : Z)
    : M V (list string) :=
  match c with
  | Exhausted => ret my_followers
  | Broken e => raise e
  | Yield follower rest =>
      let my_followers := my_followers ++ [screen_name follower] in
      let i := i + 1 in
      if 100 <=? i
      then sleep 1 ;; followers_loop rest my_followers 0
      else followers_loop rest my_followers i
  end.

(** [def get_user_followers(self, text)] *)
Definition get_user_followers (text : string) : M V (list string) :=
  enter (a_get_user_followers text) ;;
  c <- call_api (c_followers text) (followers api text) ;;
  followers_loop c [] 0.

(** [def remove_post(self, post_id)] *)
Definition remove_post (post_id : string) : M V bool :=
  enter (a_remove_post post_id) ;;
  try_except
    (call_vendor (c_destroy_status post_id) (destroy_status api post_id) ;;
     ret true)
    is_BaseException
    (fun e => print (exn_str e) ;; ret false).

(** [def update_bio(self, message)] *)
Definition update_bio (message : string) : M V unit :=
  enter (a_update_bio message) ;;
  call_vendor (c_update_profile_description message)
              (update_profile_description api message).

(** [def update_name(self, new_name)] *)
Definition update_name (new_name : string) : M V unit :=
  enter (a_update_name new_name) ;;
  call_vendor (c_update_profile_name new_name)
              (update_profile_name api new_name).

(** [d['screen_name']] on a dict of strings *)
Definition getitem_str (d : list (string * string)) (key : string) : result string :=
  match dict_get d key with
  | Some x => Return x
  | None => Raise (Exn KeyError (quote key))
  end.

(** [def username(self)] *)
Definition username : M V string :=
  enter a_username ;;
  d <- user_info ;;
  lift (getitem_str d "screen_name").

(** [def id(self)] *)
Definition id : M V Z :=
  enter a_id ;;
  u <- call_vendor c_me (me api) ;;
  ret (user_id u).

(** [def bio(self)] *)
Definition bio : M V string :=
  enter a_bio ;;
  u <- call_vendor c_me (me api) ;;
  ret (description u).

(** [def get_user_likes(self)] *)
Definition get_user_likes : M V Z :=
  enter a_get_user_likes ;;
  ret (-1).

(** [def last_tweet(self)] *)
Definition last_tweet : M V status :=
  enter a_last_tweet ;;
  uid <- id ;;
  timeline <- call_vendor (c_user_timeline uid 1) (user_timeline api uid 1) ;;
  lift (first timeline).

(** [def favorites_on(self, tweet_id)] *)
Definition favorites_on (tweet_id : Z) : M V Z :=
  enter (a_favorites_on tweet_id) ;;
  s <- call_vendor (c_get_status tweet_id) (get_status api tweet_id) ;;
  ret (favorite_count s).

(** [def latest_favorites(self)] *)
Definition latest_favorites : M V Z :=
  enter a_latest_favorites ;;
  t <- last_tweet ;;
  favorites_on (status_id t).

(** [def retweets_on(self, tweet_id)] *)
Definition retweets_on (tweet_id : Z) : M V Z :=
  enter (a_retweets_on tweet_id) ;;
  s <- call_vendor (c_get_status tweet_id) (get_status api tweet_id) ;;
  ret (retweet_count s).

(** [def latest_retweets(self)] *)
Definition latest_retweets : M V Z :=
  enter a_latest_retweets ;;
  t <- last_tweet ;;
  retweets_on (status_id t).

End Adapter.
End Twitter.

(** ** [postr/twitter_postr.py]: class [StdOutListener] *)

Module StdOutListener.
Section Listener.

Context {V : Type}.

(** [json.loads], from the standard library of Python. *)
Variable json_loads : string -> result json.

(** What stops [open(path, 'a')] on a path that is not a directory, if
    anything: an empty name, a NUL in the name, a parent directory that
    is missing, a permission that is missing.  It gives the [OSError]
    that is raised then; a session does not change it. *)
Variable open_fault : string -> option exn.

(** The file is opened without an encoding, so a text written to it is
    encoded as the locale says: the [UnicodeEncodeError] the encoder
    raises on a text, if any. *)
Variable encode_fault : string -> option exn.

(** What a path holds when read as a regular file. *)
Definition file_content (fs : gmap string fnode) (path : string) : string :=
  match fs !! path with
  | Some (File content) => content
  | _ => ""
  end.

(** [open(path, 'a')]: a directory cannot be opened, nor a path with a
    fault; otherwise a missing file is created empty. *)
Definition open_append (path : string) : M V unit :=
  fs <- get_files ;;
  match fs !! path with
  | Some Dir =>
      raise (Exn IsADirectoryError ("[Errno 21] Is a directory: " +:+ quote path))
  | found =>
      match open_fault path with
      | Some e => raise e
      | None =>
          match found with
          | None => set_files (<[path := File ""]> fs)
          | Some _ => ret tt
          end
      end
  end.

(** How [write] names what it was given in place of a [str]: the name of
    the type, and [None] for [None]. *)
Definition write_arg_name (v : json) : string :=
  match v with
  | JNone => "None"
  | _ => type_name v
  end.

(** [tf.write(v)] on the file opened at [path]: only a [str] can be
    written; it is encoded, which may fail, and goes to the end of the
    file. *)
Definition write (path : string) (v : json) : M V unit :=
  match v with
  | JStr s =>
      match encode_fault s with
      | Some e => raise e
      | None =>
          fs <- get_files ;;
          set_files (<[path := File (file_content fs path +:+ s)]> fs)
      end
  | _ =>
      raise (Exn TypeError
                 ("write() argument must be str, not " +:+ write_arg_name v))
  end.

(** [def on_data(self, raw_data)], with [self.fetched_tweets_filename]
    as [filename].  After the handler, control reaches the final
    [return True]. *)
Definition on_data (filename raw_data : string) : M V bool :=
  try_except
    (open_append filename ;;
     j <- lift (json_loads raw_data) ;;
     text <- lift (getitem j "text") ;;
     write filename text ;;
     ret true)
    is_BaseException
    (fun e => print ("Error on data " +:+ exn_str e) ;; ret true).

(** The two states of a stream session. *)
Inductive session := listening | stopped.

(** The vendor's stream hands each inbound message to the listener and
    keeps listening unless the listener answers [False]. *)
Definition deliver (filename : string) (st : session) (raw_data : string)
    : M V session :=
  match st with
  | stopped => ret stopped
  | listening =>
      keep <- on_data filename raw_data ;;
      ret (if keep : bool then listening else stopped)
  end.

Fixpoint stream (filename : string) (st : session) (inbound : list string)
    : M V session :=
  match inbound with
  | [] => ret st
  | raw_data :: rest =>
      st' <- deliver filename st raw_data ;;
      stream filename st' rest
  end.

End Listener.
End StdOutListener.

(** ** [postr/main2.py]: the posting actions of class [GUI] *)

Module GUI.
Section Actions.

Context {V : Type}.

(** The module-level [twitter = Twitter()] works on this client. *)
Variable api : API V.

Definition newline : string := String "010"%char EmptyString.

(** [self.text_box.get(1.0, END)]: Tk ends the content with a newline. *)
Definition text_box_get : M V string :=
  t <- get_tk ;; ret (text_box t +:+ newline).

(** [self.filepath.get()] *)
Definition filepath_get : M V string :=
  t <- get_tk ;; ret (filepath t).

(** [self.io_error.set(message)] *)
Definition io_error_set (message : string) : M V unit :=
  t <- get_tk ;;
  set_tk (Widgets (text_box t) (api_box t) message (filepath t)).

(** The dict [api_cache] of [api_iterator]. *)
Definition api_cache (code : Z) : option string :=
  match code with
  | 0 => Some "Facebook"
  | 1 => Some "Tumblr"
  | 2 => Some "Instagram"
  | 3 => Some "Twitter"
  | 4 => Some "Reddit"
  | 5 => Some "Youtube"
  | 6 => Some "Discord"
  | 7 => Some "Slack"
  | _ => None
  end.

(** [[api_cache[code] for code in selected_as_codes]] *)
Fixpoint api_list (selected_as_codes : list Z) : result (list string) :=
  match selected_as_codes with
  | [] => Return []
  | code :: rest =>
      match api_cache code with
      | None => Raise (Exn KeyError (pretty code))
      | Some name =>
          match api_list rest with
          | Return names => Return (name :: names)
          | Raise e => Raise e
          end
      end
  end.

(** [def api_iterator(self)]: the generator builds the whole list when
    it is first advanced, then yields its elements in order. *)
Definition api_iterator : M V (list string) :=
  t <- get_tk ;;
  lift (api_list (api_box t)).

(** [def post_text(self)] *)
Definition post_text : M V unit :=
  got <- text_box_get ;;
  let text := strip got in
  if negb (truthy text)
  then io_error_set "Error: no text found"
  else
    io_error_set "" ;;
    try_except
      (apis <- api_iterator ;;
       for_each apis (fun name =>
         if String.eqb name "Twitter"
         then Twitter.post_text api text ;; ret tt
         else ret tt))
      is_Exception
      (fun _ => io_error_set "An API failed to post text").

(** [def post_pic(self)] *)
Definition post_pic : M V unit :=
  text <- text_box_get ;;
  url <- filepath_get ;;
  if String.eqb url "No file uploaded"
  then io_error_set "Error: no file found"
  else
    io_error_set "" ;;
    try_except
      (apis <- api_iterator ;;
       for_each apis (fun name =>
         if String.eqb name "Twitter"
         then Twitter.post_photo api url text ;; ret tt
         else ret tt))
      is_Exception
      (fun _ => io_error_set "An API failed to post a photo").

(** The rows [setup_apis] inserts in the list box, top to bottom. *)
Definition apis : list string :=
  ["Facebook"; "Tumblr"; "Instagram"; "Twitter";
   "Reddit"; "Youtube"; "Discord"; "Slack"].

(** The widgets as [__init__] leaves them: the hint in the text box, no
    row selected, no error shown and no file chosen. *)
Definition initial : widgets :=
  Widgets "Enter your comment here" [] "" "No file uploaded".

(** [self.filepath.set(path)] *)
Definition filepath_set (path : string) : M V unit :=
  t <- get_tk ;;
  set_tk (Widgets (text_box t) (api_box t) (io_error t) path).

(** [def clear_comment(self)]: everything is deleted from the text box,
    then the hint is inserted. *)
Definition clear_comment : M V unit :=
  t <- get_tk ;;
  set_tk (Widgets "Enter your comment here" (api_box t) (io_error t)
                  (filepath t)).

(** [def clear_file(self)] *)
Definition clear_file : M V unit :=
  filepath_set "No file uploaded".

(** [filedialog.askopenfilename(...)]: what the user picks in the dialog
    of Tk. *)
Variable askopenfilename : M V string.

(** [def open_file_dialog(self)] *)
Definition open_file_dialog : M V unit :=
  chosen <- askopenfilename ;;
  filepath_set chosen.

End Actions.
End GUI.

(** ** [postr/postr_logger.py] *)

Module Logger.
Section Log.

Context {V : Type}.

(** [os.makedirs], from the standard library of Python. *)
Variable makedirs : string -> M V unit.

(** [exc.errno] *)
Variable errno : exn -> Z.

(** [errno.EEXIST] *)
Definition EEXIST : Z := 17.

(** [isinstance(e, OSError)] *)
Definition is_OSError (e : exn) : bool :=
  match exn_cls e with
  | OSError | IsADirectoryError => true
  | _ => false
  end.

(** [os.path.exists(path)] *)
Definition path_exists (path : string) : M V bool :=
  fs <- get_files ;;
  ret (match fs !! path with Some _ => true | None => false end).

(** [def make_log_path(log_path)] *)
Definition make_log_path (log_path : string) : M V unit :=
  there <- path_exists log_path ;;
  if negb there
  then
    try_except
      (makedirs log_path)
      is_OSError
      (fun exc => if negb (errno exc =? EEXIST) then raise exc else ret tt)
  else ret tt.

(** [s.replace(old, new)] for patterns of one character. *)
Fixpoint replace_char (old new : ascii) (s : string) : string :=
  match s with
  | EmptyString => EmptyString
  | String c s' =>
      String (if Ascii.eqb c old then new else c) (replace_char old new s')
  end.

(** The local [now] of [make_logger], from the text [clock] that
    [str(datetime.datetime.now())] gives. *)
Definition now (clock : string) : string :=
  replace_char " " "_" (replace_char ":" "-" clock).

(** The name [f'{name}-{now}.log'] of the log file of [make_logger]
    inside its directory. *)
Definition log_name (name clock : string) : string :=
  name +:+ "-" +:+ now clock +:+ ".log".

End Log.
End Logger.

(** ** A simulated vendor, to run the code on concrete inputs *)

Module Sim.

(** The simulated service: the number of calls it still answers before
    it goes down, the authenticated user, that user's timeline (latest
    first) and the run of the follower cursor. *)
Record service := Service {
  credit : nat;
  account : user;
  timeline : list status;
  follower_run : cursor
}.

Definition down_error : exn := Exn TweepError "Failed to send request".

Definition spend (v : service) : service :=
  Service (Nat.pred (credit v)) (account v) (timeline v) (follower_run v).

Definition answer {A} (r : result A) (v : service) : result A * service :=
  match credit v with
  | O => (Raise down_error, v)
  | S _ => (r, spend v)
  end.

Fixpoint find_status (l : list status) (tweet_id : Z) : result status :=
  match l with
  | [] => Raise (Exn TweepError "No status found with that ID.")
  | s :: rest =>
      if status_id s =? tweet_id then Return s else find_status rest tweet_id
  end.

Definition api : API service := {|
  update_status := fun _ => answer (Return tt);
  update_with_media := fun _ _ => answer (Return tt);
  destroy_status := fun _ => answer (Return tt);
  followers := fun _ v =>
    match credit v with
    | O => (Broken down_error, v)
    | S _ => (follower_run v, spend v)
    end;
  update_profile_description := fun _ => answer (Return tt);
  update_profile_name := fun _ => answer (Return tt);
  me := fun v => answer (Return (account v)) v;
  user_timeline := fun _ count v =>
    answer (Return (take (Z.to_nat count) (timeline v))) v;
  get_status := fun tweet_id v => answer (find_status (timeline v) tweet_id) v
|}.

(** [user_info] as a call to the same service. *)
Definition user_info : M service (list (string * string)) :=
  call_vendor c_me (fun v =>
    answer (Return [("screen_name", screen_name (account v))]) v).

Definition alice : user := User 7 "alice" "hello".
Definition bob : user := User 8 "bob" "".

Definition tweet1 : status := Status 101 4 2.
Definition tweet2 : status := Status 100 9 1.

(** 250 followers, named after their number. *)
Definition crowd : list user :=
  map (fun n => User n (pretty n) "") (seqZ 0 250).

Definition service0 : service :=
  Service 1000 alice [tweet1; tweet2] (cursor_of crowd).

Definition world_of (v : service) (t : widgets) : world service :=
  World v [] [] [] [] ∅ t.

Definition widgets0 : widgets := Widgets "hello" [3] "" "cat.jpg".

(** The service answers. *)
Definition world0 : world service := world_of service0 widgets0.

(** The service goes down after [n] calls. *)
Definition world_credit (n : nat) : world service :=
  world_of (Service n alice [tweet1; tweet2]
                    (cursor_broken [bob] down_error)) widgets0.

(** The account has not posted yet. *)
Definition world_no_post : world service :=
  world_of (Service 1000 alice [] Exhausted) widgets0.

(** Only blanks are typed in the text box. *)
Definition world_blank : world service :=
  world_of service0 (Widgets "   " [3] "" "cat.jpg").

(** No row of the list box is selected. *)
Definition world_unselected : world service :=
  world_of service0 (Widgets "hello" [] "" "cat.jpg").

(** The destination file of a session. *)
Definition session_file : string := "tweets.txt".

(** The follower cursor breaks after 250 items. *)
Definition world_broken : world service :=
  world_of (Service 1000 alice [tweet1; tweet2]
                    (cursor_broken crowd down_error)) widgets0.

(** The destination of the session is a directory. *)
Definition world_dir : world service :=
  World service0 [] [] [] [] {[session_file := Dir]} widgets0.

(** Twitter is selected together with a row the list box does not have. *)
Definition world_bad_row : world service :=
  world_of service0 (Widgets "hello" [3; 8] "" "cat.jpg").

(** A file is chosen, Twitter is selected and the text box is empty. *)
Definition world_photo_only : world service :=
  world_of service0 (Widgets "" [3] "" "cat.jpg").

(** Every row but Twitter is selected. *)
Definition world_others : world service :=
  world_of service0 (Widgets "hello" [0; 1; 2; 4; 5; 6; 7] "" "cat.jpg").

(** The program has just started, and Twitter is selected. *)
Definition world_started : world service :=
  world_of service0
    (Widgets (text_box GUI.initial) [3] (io_error GUI.initial)
             (filepath GUI.initial)).

(** The user closes the file dialog without a choice. *)
Definition dialog_cancelled : M service string := ret "".

(** The directory appears between the test and the creation. *)
Definition makedirs_raced (path : string) : M service unit :=
  raise (Exn OSError ("[Errno 17] File exists: " +:+ quote path)).

(** The directory may not be created. *)
Definition makedirs_denied (path : string) : M service unit :=
  raise (Exn OSError ("[Errno 13] Permission denied: " +:+ quote path)).

(** [exc.errno], read off the text of the two errors above. *)
Definition errno_of (e : exn) : Z :=
  if String.prefix "[Errno 17]" (exn_str e) then 17 else 13.

Definition dq : string := String "034"%char EmptyString.

(** Four inbound messages: a tweet, a notice without text, a message
    whose text is a number, and one that is not JSON. *)
Definition raw_tweet : string :=
  "{" +:+ dq +:+ "text" +:+ dq +:+ ": " +:+ dq +:+ "hi" +:+ dq +:+ "}".
Definition raw_notice : string :=
  "{" +:+ dq +:+ "limit" +:+ dq +:+ ": 3}".
Definition raw_number : string :=
  "{" +:+ dq +:+ "text" +:+ dq +:+ ": 5}".
Definition raw_garbage : string := "not json".

(** [json.loads] on these four messages; any other input is taken as
    undecodable. *)
Definition json_loads (raw_data : string) : result json :=
  if String.eqb raw_data raw_tweet then Return (JDict [("text", JStr "hi")])
  else if String.eqb raw_data raw_notice then Return (JDict [("limit", JInt 3)])
  else if String.eqb raw_data raw_number then Return (JDict [("text", JInt 5)])
  else Raise (Exn JSONDecodeError "Expecting value: line 1 column 1 (char 0)").

(** The messages of a short session. *)
Definition short_session : list string :=
  [raw_tweet; raw_notice; raw_number; raw_garbage; raw_tweet].

(** A tweet whose text is one letter with an accent, code point 233. *)
Definition accent : string := String "233"%char EmptyString.
Definition raw_accent : string :=
  "{" +:+ dq +:+ "text" +:+ dq +:+ ": " +:+ dq +:+ accent +:+ dq +:+ "}".

(** [json.loads] on the messages above. *)
Definition json_loads_accent (raw_data : string) : result json :=
  if String.eqb raw_data raw_accent
  then Return (JDict [("text", JStr accent)])
  else json_loads raw_data.

(** The messages of a session with accents. *)
Definition accent_session : list string :=
  [raw_tweet; raw_notice; raw_number; raw_accent; raw_garbage; raw_tweet].

(** Every path that is not a directory can be opened. *)
Definition open_fault (path : string) : option exn := None.

(** Every path with a name can be opened; the [OSError] for the empty
    name is the one of its class [FileNotFoundError]. *)
Definition empty_name_fault (path : string) : option exn :=
  if String.eqb path ""
  then Some (Exn OSError "[Errno 2] No such file or directory: ''")
  else None.

(** The locale encodes with UTF-8, which takes every text of code
    points below 256. *)
Definition utf8_fault (text : string) : option exn := None.

(** The position of the first character of [text] from 128 on, counted
    from [i], and that character. *)
Fixpoint first_high (text : string) (i : Z) : option (Z * ascii) :=
  match text with
  | EmptyString => None
  | String c rest =>
      if (128 <=? N_of_ascii c)%N then Some (i, c) else first_high rest (i + 1)
  end.

(** How many characters from 128 on [text] starts with. *)
Fixpoint high_run (text : string) : Z :=
  match text with
  | EmptyString => 0
  | String c rest =>
      if (128 <=? N_of_ascii c)%N then 1 + high_run rest else 0
  end.

Fixpoint drop_chars (n : nat) (text : string) : string :=
  match n, text with
  | S n', String _ rest => drop_chars n' rest
  | _, _ => text
  end.

(** The locale encodes with ASCII: a text fails at its first run of
    characters from 128 on. *)
Definition ascii_fault (text : string) : option exn :=
  match first_high text 0 with
  | None => None
  | Some (i, c) =>
      let run := high_run (drop_chars (Z.to_nat i) text) in
      Some (Exn UnicodeEncodeError
              ("'ascii' codec can't encode "
               +:+ (if run =? 1
                    then "character '" +:+ hex_escape (N_of_ascii c)
                         +:+ "' in position " +:+ pretty i
                    else "characters in position " +:+ pretty i +:+ "-"
                         +:+ pretty (i + run - 1))
               +:+ ": ordinal not in range(128)"))
  end.

End Sim.

(** ** Vocabulary of the statements *)

(** The world after the given pauses. *)
Definition slept {V} (pauses : list Z) (w : world V) : world V :=
  World (vendor w) (vendor_calls w) (adapter_calls w)
        (stdout w) (sleeps w ++ pauses) (files w) (tk w).

(** [n] pauses of one second. *)
Definition pauses (n : Z) : list Z := replicate (Z.to_nat n) 1.

(** The world after method [a] of the adapter was entered. *)
Definition entered {V} (a : adapter_call) (w : world V) : world V :=
  World (vendor w) (vendor_calls w) (adapter_calls w ++ [a])
        (stdout w) (sleeps w) (files w) (tk w).

(** The world after the call [c] moved the service to [v']. *)
Definition called {V} (c : vendor_call) (v' : V) (w : world V) : world V :=
  World v' (vendor_calls w ++ [c]) (adapter_calls w)
        (stdout w) (sleeps w) (files w) (tk w).

(** The world after [out] was printed. *)
Definition printed {V} (out : list string) (w : world V) : world V :=
  World (vendor w) (vendor_calls w) (adapter_calls w)
        (stdout w ++ out) (sleeps w) (files w) (tk w).

(** What a write operation of the adapter makes of the vendor's answer:
    [True] when the call returned, and [False] with the cause printed
    when it raised. *)
Definition write_outcome {V} (a : adapter_call) (c : vendor_call)
    (answer : result unit * V) (w : world V) : result bool * world V :=
  match answer with
  | (Return _, v') => (Return true, called c v' (entered a w))
  | (Raise e, v') =>
      (Return false, printed [exn_str e] (called c v' (entered a w)))
  end.

(** The world after the status field was set to [message]. *)
Definition with_io_error {V} (message : string) (w : world V) : world V :=
  World (vendor w) (vendor_calls w) (adapter_calls w)
        (stdout w) (sleeps w) (files w)
        (Widgets (text_box (tk w)) (api_box (tk w)) message (filepath (tk w))).

(** The text the post action works on: the content of the text box as Tk
    returns it, stripped. *)
Definition typed_text {V} (w : world V) : string :=
  strip (text_box (tk w) +:+ GUI.newline).

(** The body of the loop of [post_text] over the selected platforms. *)
Definition post_text_body {V} (api : API V) (text name : string) : M V unit :=
  if String.eqb name "Twitter"
  then Twitter.post_text api text ;; ret tt
  else ret tt.

(** The body of the loop of [post_pic]. *)
Definition post_pic_body {V} (api : API V) (url text name : string)
    : M V unit :=
  if String.eqb name "Twitter"
  then Twitter.post_photo api url text ;; ret tt
  else ret tt.

Section StreamVocabulary.

Variable json_loads : string -> result json.
Variable open_fault : string -> option exn.
Variable encode_fault : string -> option exn.

(** The text of a message that decodes to an object whose ['text'] is a
    string the encoder of the file takes. *)
Definition text_of (raw_data : string) : option string :=
  match json_loads raw_data with
  | Return (JDict items) =>
      match dict_get items "text" with
      | Some (JStr s) =>
          match encode_fault s with
          | None => Some s
          | Some _ => None
          end
      | _ => None
      end
  | _ => None
  end.

(** The exception the body of [on_data] meets on a message, once the
    file is open. *)
Definition failure (raw_data : string) : option exn :=
  match json_loads raw_data with
  | Raise e => Some e
  | Return j =>
      match getitem j "text" with
      | Raise e => Some e
      | Return (JStr s) => encode_fault s
      | Return v =>
          Some (Exn TypeError
                    ("write() argument must be str, not "
                     +:+ StdOutListener.write_arg_name v))
      end
  end.

(** The texts of the messages that have one, end to end. *)
Fixpoint written (inbound : list string) : string :=
  match inbound with
  | [] => ""
  | raw_data :: rest =>
      match text_of raw_data with
      | Some s => s +:+ written rest
      | None => written rest
      end
  end.

(** The lines printed for the messages that fail. *)
Fixpoint complaints (inbound : list string) : list string :=
  match inbound with
  | [] => []
  | raw_data :: rest =>
      match failure raw_data with
      | Some e => ("Error on data " +:+ exn_str e) :: complaints rest
      | None => complaints rest
      end
  end.

(** The messages without a text to write. *)
Definition skipped (inbound : list string) : list string :=
  List.filter (fun raw_data =>
    match text_of raw_data with Some _ => false | None => true end) inbound.

(** The ['text'] field of a message that is valid JSON and has one,
    whatever its value. *)
Definition claimed_text (raw_data : string) : option json :=
  match json_loads raw_data with
  | Return (JDict items) => dict_get items "text"
  | _ => None
  end.

Definition claimed_well_formed (raw_data : string) : bool :=
  match claimed_text raw_data with Some _ => true | None => false end.

(** The stream property with "well-formed" read as "valid JSON with a
    ['text'] field", on a destination that can be opened: the session
    keeps listening; each well-formed message adds one piece to the file,
    its text when that is a string, and nothing else is added; one
    complaint is printed for each malformed message and none for the
    others.  What is added for a text that is not a string is left open,
    so a listener that wrote such a text in some form, and complained of
    the malformed messages only, would meet the property. *)
Definition stream_claim_as_stated : Prop :=
  forall (V : Type) (filename : string) (inbound : list string) (w : world V),
    files w !! filename <> Some Dir ->
    open_fault filename = None ->
    exists (w' : world V) (pieces : list string),
      StdOutListener.stream json_loads open_fault encode_fault filename
                            StdOutListener.listening inbound w
        = (Return StdOutListener.listening, w') /\
      Forall2 (fun raw_data piece =>
                 forall s, claimed_text raw_data = Some (JStr s) -> piece = s)
              (List.filter claimed_well_formed inbound) pieces /\
      StdOutListener.file_content (files w') filename
        = StdOutListener.file_content (files w) filename
          +:+ fold_right String.append "" pieces /\
      length (stdout w')
        = (length (stdout w)
           + length (List.filter (fun raw_data =>
                       negb (claimed_well_formed raw_data)) inbound))%nat.

End StreamVocabulary.

(** A cursor that yields [items] and then runs as [c]. *)
Fixpoint cursor_app (items : list user) (c : cursor) : cursor :=
  match items with
  | [] => c
  | item :: rest => Yield item (cursor_app rest c)
  end.

(** The first and the last character of a string. *)
Definition head_char (s : string) : option ascii :=
  match s with
  | EmptyString => None
  | String c _ => Some c
  end.

Fixpoint last_char (s : string) : option ascii :=
  match s with
  | EmptyString => None
  | String c EmptyString => Some c
  | String _ s' => last_char s'
  end.

(** How often the row of Twitter occurs in a selection. *)
Definition twitter_rows (codes : list Z) : nat :=
  length (List.filter (Z.eqb 3) codes).

(** The characters of a string. *)
Fixpoint chars (s : string) : list ascii :=
  match s with
  | EmptyString => []
  | String c s' => c :: chars s'
  end.

(** How often Twitter occurs among the names of a selection. *)
Definition twitter_names (names : list string) : nat :=
  length (List.filter (fun name => String.eqb name "Twitter") names).

(** A selection the list box of [setup_apis] can give: rows 0 to 7. *)
Definition selectable (codes : list Z) : Prop :=
  Forall (fun code => 0 <= code < 8) codes.

(** The world after the file variable was set to [path]. *)
Definition with_filepath {V} (path : string) (w : world V) : world V :=
  World (vendor w) (vendor_calls w) (adapter_calls w)
        (stdout w) (sleeps w) (files w)
        (Widgets (text_box (tk w)) (api_box (tk w)) (io_error (tk w)) path).

(** What [now] of [make_logger] makes of one character of the clock. *)
Definition now_char (c : ascii) : ascii :=
  if Ascii.eqb c ":" then "-"%char
  else if Ascii.eqb c " " then "_"%char
  else c.

(** Unfold the monad and the primitives of the world. *)
Ltac run :=
  cbv beta iota zeta delta
    [bind ret raise lift try_except enter print sleep call_vendor call_api
     get_tk set_tk get_files set_files is_BaseException];
  cbn [fst snd vendor vendor_calls adapter_calls stdout sleeps files tk].

(** Use what the vendor is known to answer. *)
Ltac answered H := rewrite H; run.

(** ** Follower pagination *)

Section Followers.

Context {V : Type} (api : API V).

Lemma slept_nil (w : world V) : slept [] w = w.
Proof. destruct w; unfold slept; simpl. now rewrite app_nil_r. Qed.

Lemma slept_slept (p q : list Z) (w : world V) :
  slept q (slept p w) = slept (p ++ q) w.
Proof. unfold slept; simpl. now rewrite app_assoc. Qed.

Lemma pauses_succ (n : Z) : 0 <= n -> pauses (1 + n) = 1 :: pauses n.
Proof.
  intros Hn. unfold pauses.
  replace (Z.to_nat (1 + n)) with (S (Z.to_nat n)) by lia.
  reflexivity.
Qed.

(** The loop over a cursor that yields [pre] and then [post]: when [pre]
    has been consumed the counter stands at [(i + |pre|) mod 100] and
    [(i + |pre|) / 100] pauses have been taken. *)
Lemma followers_loop_app (pre post : list user) :
  forall (acc : list string) (i : Z) (w : world V),
    0 <= i < 100 ->
    Twitter.followers_loop (cursor_of (pre ++ post)) acc i w =
    Twitter.followers_loop (cursor_of post)
      (acc ++ map screen_name pre)
      ((i + Z.of_nat (length pre)) mod 100)
      (slept (pauses ((i + Z.of_nat (length pre)) / 100)) w).
Proof.
  induction pre as [|u pre IH]; intros acc i w Hi.
  - cbn [app map length Z.of_nat].
    rewrite Z.add_0_r, Z.mod_small, Z.div_small by lia.
    now rewrite app_nil_r, slept_nil.
  - cbn [app map length cursor_of Twitter.followers_loop].
    rewrite Nat2Z.inj_succ.
    destruct (Z.leb_spec 100 (i + 1)) as [Hge|Hlt].
    + assert (i = 99) by lia; subst i.
      unfold bind at 1, sleep at 1.
      rewrite IH by lia. cbn [app].
      replace (99 + Z.succ (Z.of_nat (length pre)))
        with (0 + Z.of_nat (length pre) + 1 * 100) by lia.
      rewrite Z_mod_plus_full, Z.div_add by lia.
      rewrite <- app_assoc. cbn [app].
      replace (slept _ (World _ _ _ _ _ _ _))
        with (slept ([1] ++ pauses ((0 + Z.of_nat (length pre)) / 100)) w)
        by (now rewrite <- slept_slept).
      rewrite (Z.add_comm _ 1), pauses_succ; [reflexivity|].
      apply Z.div_pos; lia.
    + rewrite IH by lia.
      replace (i + 1 + Z.of_nat (length pre))
        with (i + Z.succ (Z.of_nat (length pre))) by lia.
      now rewrite <- app_assoc.
Qed.

(** The loop over a cursor that yields [items] and is exhausted. *)
Lemma followers_loop_exhausted (items : list user) (acc : list string)
    (i : Z) (w : world V) :
  0 <= i < 100 ->
  Twitter.followers_loop (cursor_of items) acc i w =
  (Return (acc ++ map screen_name items),
   slept (pauses ((i + Z.of_nat (length items)) / 100)) w).
Proof.
  intros Hi.
  rewrite <- (app_nil_r items) at 1.
  now rewrite followers_loop_app.
Qed.

(** C1. When the follower cursor yields [K] items and is exhausted,
    [get_user_followers] returns the [K] screen names in the order of the
    cursor and pauses [K / 100] times, one second each; and at every
    point of the run, when a prefix of [n] items has been consumed,
    [n / 100] pauses have been taken and [n mod 100] items have
    accumulated since the last one. *)
Theorem get_user_followers_pagination (text : string) (w : world V)
    (items : list user) (v' : V) :
  followers api text (vendor w) = (cursor_of items, v') ->
  exists w',
    Twitter.get_user_followers api text w
      = (Return (map screen_name items), w') /\
    sleeps w' = sleeps w ++ pauses (Z.of_nat (length items) / 100) /\
    stdout w' = stdout w /\
    forall (pre post : list user) (w0 : world V),
      items = pre ++ post ->
      Twitter.followers_loop (cursor_of items) [] 0 w0 =
      Twitter.followers_loop (cursor_of post) (map screen_name pre)
        (Z.of_nat (length pre) mod 100)
        (slept (pauses (Z.of_nat (length pre) / 100)) w0).
Proof.
  intros Hcur.
  unfold Twitter.get_user_followers, bind, enter, call_api; simpl.
  rewrite Hcur.
  rewrite followers_loop_exhausted by lia.
  eexists; split; [reflexivity|].
  repeat split.
  intros pre post w0 ->.
  now rewrite followers_loop_app by lia.
Qed.

End Followers.

(** ** The adapter: writes swallow, reads propagate *)

Section Adapter.

Context {V : Type} (api : API V).
Variable user_info : M V (list (string * string)).

(** The pattern shared by the three write operations: enter, call the
    vendor under [try], print and answer [False] on any exception. *)
Lemma guarded_call (a : adapter_call) (c : vendor_call)
    (f : V -> result unit * V) (w : world V) :
  (enter a ;;
   try_except (call_vendor c f ;; ret true) is_BaseException
              (fun e => print (exn_str e) ;; ret false)) w
  = write_outcome a c (f (vendor w)) w.
Proof.
  run. unfold write_outcome.
  destruct (f (vendor w)) as [[u|e] v']; reflexivity.
Qed.

Lemma write_outcome_returns (a : adapter_call) (c : vendor_call)
    (answer : result unit * V) (w : world V) :
  raised (fst (write_outcome a c answer w)) = false.
Proof. destruct answer as [[u|e] v']; reflexivity. Qed.

(** C3. [post_text], [post_photo] and [remove_post] never raise: each
    returns [True] when the vendor call returns, and when the vendor call
    raises, whatever the exception, it prints the cause and returns
    [False].  This holds for every text, empty or not. *)
Theorem write_operations_never_raise (text url post_id : string) (w : world V) :
  (Twitter.post_text api text w
     = write_outcome (a_post_text text) (c_update_status text)
                     (update_status api text (vendor w)) w /\
   raised (fst (Twitter.post_text api text w)) = false) /\
  (Twitter.post_photo api url text w
     = write_outcome (a_post_photo url text) (c_update_with_media url text)
                     (update_with_media api url text (vendor w)) w /\
   raised (fst (Twitter.post_photo api url text w)) = false) /\
  (Twitter.remove_post api post_id w
     = write_outcome (a_remove_post post_id) (c_destroy_status post_id)
                     (destroy_status api post_id (vendor w)) w /\
   raised (fst (Twitter.remove_post api post_id w)) = false).
Proof.
  unfold Twitter.post_text, Twitter.post_photo, Twitter.remove_post.
  rewrite !guarded_call.
  repeat split; apply write_outcome_returns.
Qed.

(** C8. [post_video] returns [False] for every url and text; it makes no
    vendor call, prints nothing and does not raise. *)
Theorem post_video_always_false (url text : string) (w : world V) :
  Twitter.post_video url text w
    = (Return false, entered (a_post_video url text) w) /\
  vendor_calls (snd (Twitter.post_video url text w)) = vendor_calls w /\
  vendor (snd (Twitter.post_video url text w)) = vendor w.
Proof. repeat split. Qed.

(** C9. [get_user_likes] returns -1 in every state; it makes no vendor
    call. *)
Theorem get_user_likes_sentinel (w : world V) :
  Twitter.get_user_likes w = (Return (-1), entered a_get_user_likes w) /\
  vendor_calls (snd (Twitter.get_user_likes w)) = vendor_calls w /\
  vendor (snd (Twitter.get_user_likes w)) = vendor w.
Proof. repeat split. Qed.

(** A cursor that breaks makes the loop raise, whatever was gathered. *)
Lemma followers_loop_broken (items : list user) (e : exn) :
  forall (acc : list string) (i : Z) (w : world V),
    fst (Twitter.followers_loop (cursor_broken items e) acc i w) = Raise e.
Proof.
  induction items as [|u items IH]; intros acc i w; [reflexivity|].
  cbn [cursor_broken Twitter.followers_loop].
  destruct (100 <=? i + 1); [|apply IH].
  unfold bind at 1, sleep at 1. apply IH.
Qed.

(** C5. No read operation handles exceptions: when a vendor call it
    makes raises [e], the operation raises the same [e].  For the three
    operations on the latest post this holds of each of the calls they
    make in turn ([me], [user_timeline], [get_status]); for
    [get_user_followers], of a cursor that breaks after any number of
    items. *)
Theorem read_operations_propagate (w : world V) (e : exn) :
  (forall v',
     me api (vendor w) = (Raise e, v') ->
     fst (Twitter.id api w) = Raise e /\
     fst (Twitter.bio api w) = Raise e /\
     fst (Twitter.last_tweet api w) = Raise e /\
     fst (Twitter.latest_favorites api w) = Raise e /\
     fst (Twitter.latest_retweets api w) = Raise e) /\
  (forall u v1 v2,
     me api (vendor w) = (Return u, v1) ->
     user_timeline api (user_id u) 1 v1 = (Raise e, v2) ->
     fst (Twitter.last_tweet api w) = Raise e /\
     fst (Twitter.latest_favorites api w) = Raise e /\
     fst (Twitter.latest_retweets api w) = Raise e) /\
  (forall u v1 t ts v2 v3,
     me api (vendor w) = (Return u, v1) ->
     user_timeline api (user_id u) 1 v1 = (Return (t :: ts), v2) ->
     get_status api (status_id t) v2 = (Raise e, v3) ->
     fst (Twitter.latest_favorites api w) = Raise e /\
     fst (Twitter.latest_retweets api w) = Raise e) /\
  (forall tweet_id v',
     get_status api tweet_id (vendor w) = (Raise e, v') ->
     fst (Twitter.favorites_on api tweet_id w) = Raise e /\
     fst (Twitter.retweets_on api tweet_id w) = Raise e) /\
  (forall w',
     user_info (entered a_username w) = (Raise e, w') ->
     fst (Twitter.username user_info w) = Raise e) /\
  (forall text items v',
     followers api text (vendor w) = (cursor_broken items e, v') ->
     fst (Twitter.get_user_followers api text w) = Raise e).
Proof.
  repeat apply conj.
  - intros v' Hme.
    unfold Twitter.latest_favorites, Twitter.latest_retweets,
           Twitter.last_tweet, Twitter.id, Twitter.bio.
    run. answered Hme. repeat split.
  - intros u v1 v2 Hme Htl.
    unfold Twitter.latest_favorites, Twitter.latest_retweets,
           Twitter.last_tweet, Twitter.id.
    run. answered Hme. answered Htl. repeat split.
  - intros u v1 t ts v2 v3 Hme Htl Hst.
    unfold Twitter.latest_favorites, Twitter.latest_retweets,
           Twitter.favorites_on, Twitter.retweets_on,
           Twitter.last_tweet, Twitter.id.
    run. answered Hme. answered Htl. cbn [first]. answered Hst.
    repeat split.
  - intros tweet_id v' Hst.
    unfold Twitter.favorites_on, Twitter.retweets_on.
    run. answered Hst. repeat split.
  - intros w' Hinfo.
    unfold Twitter.username. run.
    fold (entered a_username w). now rewrite Hinfo.
  - intros text items v' Hcur.
    unfold Twitter.get_user_followers. run.
    rewrite Hcur. apply followers_loop_broken.
Qed.

(** C6. When the authenticated user's timeline is not empty, the access
    at index 0 in [last_tweet] succeeds and [latest_favorites] and
    [latest_retweets] return the counts the vendor reports for the post
    at the head of the timeline; when the timeline is empty the access
    raises [IndexError], which the three operations let through. *)
Theorem latest_counts_need_a_post (w : world V) (u : user) (v1 : V) :
  me api (vendor w) = (Return u, v1) ->
  (forall t ts v2 s v3,
     user_timeline api (user_id u) 1 v1 = (Return (t :: ts), v2) ->
     get_status api (status_id t) v2 = (Return s, v3) ->
     fst (Twitter.last_tweet api w) = Return t /\
     fst (Twitter.latest_favorites api w) = Return (favorite_count s) /\
     fst (Twitter.latest_retweets api w) = Return (retweet_count s)) /\
  (forall v2,
     user_timeline api (user_id u) 1 v1 = (Return [], v2) ->
     let e := Exn IndexError "list index out of range" in
     fst (Twitter.last_tweet api w) = Raise e /\
     fst (Twitter.latest_favorites api w) = Raise e /\
     fst (Twitter.latest_retweets api w) = Raise e).
Proof.
  intros Hme. split.
  - intros t ts v2 s v3 Htl Hst.
    unfold Twitter.latest_favorites, Twitter.latest_retweets,
           Twitter.favorites_on, Twitter.retweets_on,
           Twitter.last_tweet, Twitter.id.
    run. answered Hme. answered Htl. cbn [first]. answered Hst.
    repeat split.
  - intros v2 Htl e.
    unfold Twitter.latest_favorites, Twitter.latest_retweets,
           Twitter.last_tweet, Twitter.id.
    run. answered Hme. answered Htl. repeat split.
Qed.

End Adapter.

(** ** The stream listener *)

Section Strings.

Lemma append_nil_r (s : string) : s +:+ "" = s.
Proof.
  induction s as [|c s IH]; [reflexivity|].
  change (String c (s +:+ "") = String c s). now rewrite IH.
Qed.

Lemma append_assoc (s1 s2 s3 : string) :
  (s1 +:+ s2) +:+ s3 = s1 +:+ (s2 +:+ s3).
Proof.
  induction s1 as [|c s1 IH]; [reflexivity|].
  change (String c ((s1 +:+ s2) +:+ s3) = String c (s1 +:+ (s2 +:+ s3))).
  now rewrite IH.
Qed.

End Strings.

Section Stream.

Context {V : Type}.
Variable json_loads : string -> result json.
Variable open_fault : string -> option exn.
Variable encode_fault : string -> option exn.

Local Abbreviation on_data :=
  (StdOutListener.on_data json_loads open_fault encode_fault).
Local Abbreviation stream :=
  (StdOutListener.stream json_loads open_fault encode_fault).
Local Abbreviation file_content := StdOutListener.file_content.
Local Abbreviation the_text := (text_of json_loads encode_fault).
Local Abbreviation the_failure := (failure json_loads encode_fault).

(** Take the body of [on_data] apart, message by message. *)
Ltac by_message raw_data :=
  destruct (json_loads raw_data) as [[| | | | |?|?]|?]; cbn [getitem]; run;
  repeat match goal with
  | |- context [dict_get ?items "text"] =>
      destruct (dict_get items "text") as [[| | | |?| |]|]; run
  | |- context [encode_fault ?s] =>
      destruct (encode_fault s) as [?|]; run
  end.

(** [on_data] answers [True] on every message and in every world, also
    when the file cannot be opened or the text cannot be encoded. *)
Lemma on_data_returns_true (filename raw_data : string) (w : world V) :
  fst (on_data filename raw_data w) = Return true.
Proof.
  unfold StdOutListener.on_data, StdOutListener.open_append,
         StdOutListener.write.
  run.
  destruct (files w !! filename) as [[content|]|]; run;
    try reflexivity;
    (destruct (open_fault filename) as [?|]; run; [reflexivity|]);
    by_message raw_data; reflexivity.
Qed.

(** A message has a text to write exactly when the body of [on_data]
    meets no exception. *)
Lemma text_of_failure (raw_data : string) :
  match the_text raw_data with
  | Some _ => the_failure raw_data = None
  | None => exists e, the_failure raw_data = Some e
  end.
Proof.
  unfold text_of, failure.
  destruct (json_loads raw_data) as [j|e]; [|eauto].
  destruct j as [| | | | |l|items]; cbn [getitem]; eauto.
  destruct (dict_get items "text") as [text|]; [|eauto].
  destruct text as [| | | |s| |]; eauto.
  destruct (encode_fault s); eauto.
Qed.

(** One message, when the destination can be opened. *)
Lemma on_data_step (filename raw_data : string) (w : world V) :
  files w !! filename <> Some Dir ->
  open_fault filename = None ->
  exists w',
    on_data filename raw_data w = (Return true, w') /\
    files w' !! filename <> Some Dir /\
    file_content (files w') filename
      = file_content (files w) filename
        +:+ match the_text raw_data with
            | Some s => s
            | None => ""
            end /\
    stdout w'
      = stdout w ++ match the_failure raw_data with
                    | Some e => ["Error on data " +:+ exn_str e]
                    | None => []
                    end /\
    (forall path, path <> filename -> files w' !! path = files w !! path) /\
    vendor_calls w' = vendor_calls w /\
    adapter_calls w' = adapter_calls w.
Proof.
  intros Hopen Hfault.
  unfold StdOutListener.on_data, StdOutListener.open_append,
         StdOutListener.write, text_of, failure.
  run.
  destruct (files w !! filename) as [[content|]|] eqn:Hfile;
    [|congruence|]; rewrite Hfault; run;
    by_message raw_data;
    (eexists; split; [reflexivity|]);
    cbn [files stdout vendor_calls adapter_calls];
    unfold StdOutListener.file_content;
    rewrite ?lookup_insert_eq, ?Hfile, ?append_nil_r, ?app_nil_r;
    repeat apply conj; try congruence; try reflexivity;
    intros path Hpath; rewrite ?lookup_insert_ne by congruence; reflexivity.
Qed.

(** A session that listens keeps listening through any inbound
    messages, writes the texts and prints the complaints. *)
Lemma stream_listening (filename : string) (inbound : list string) :
  forall w : world V,
    files w !! filename <> Some Dir ->
    open_fault filename = None ->
    exists w',
      stream filename StdOutListener.listening inbound w
        = (Return StdOutListener.listening, w') /\
      files w' !! filename <> Some Dir /\
      file_content (files w') filename
        = file_content (files w) filename
          +:+ written json_loads encode_fault inbound /\
      stdout w' = stdout w ++ complaints json_loads encode_fault inbound /\
      (forall path, path <> filename -> files w' !! path = files w !! path) /\
      vendor_calls w' = vendor_calls w /\
      adapter_calls w' = adapter_calls w.
Proof.
  induction inbound as [|raw_data rest IH]; intros w Hopen Hfault.
  - exists w. cbn [StdOutListener.stream written complaints]. run.
    rewrite append_nil_r, app_nil_r. repeat split; auto.
  - destruct (on_data_step filename raw_data w Hopen Hfault)
      as (w1 & Hrun & Hopen1 & Hfile1 & Hout1 & Hrest1 & Hvc1 & Hac1).
    destruct (IH w1 Hopen1 Hfault)
      as (w2 & Hrun2 & Hopen2 & Hfile2 & Hout2 & Hrest2 & Hvc2 & Hac2).
    exists w2.
    cbn [StdOutListener.stream StdOutListener.deliver written complaints].
    unfold bind at 1 2. rewrite Hrun. cbn [ret].
    rewrite Hfile2, Hfile1, Hout2, Hout1, append_assoc, <- app_assoc.
    repeat apply conj; auto.
    + destruct (the_text raw_data); reflexivity.
    + destruct (the_failure raw_data); reflexivity.
    + intros path Hpath. rewrite Hrest2, Hrest1; auto.
    + congruence.
    + congruence.
Qed.

Lemma complaints_skipped (inbound : list string) :
  length (complaints json_loads encode_fault inbound)
  = length (skipped json_loads encode_fault inbound).
Proof.
  induction inbound as [|raw_data rest IH]; [reflexivity|].
  unfold skipped in *. cbn [complaints List.filter].
  pose proof (text_of_failure raw_data) as H.
  destruct (the_text raw_data) as [s|].
  - now rewrite H.
  - destruct H as [e ->]. cbn [length]. now rewrite IH.
Qed.

Lemma text_of_well_formed (raw_data s : string) :
  the_text raw_data = Some s <->
  exists items,
    json_loads raw_data = Return (JDict items) /\
    dict_get items "text" = Some (JStr s) /\
    encode_fault s = None.
Proof.
  unfold text_of. split.
  - destruct (json_loads raw_data) as [[| | | | |l|items]|e]; try discriminate.
    destruct (dict_get items "text") as [[| | | |s'| |]|] eqn:Hget;
      try discriminate.
    destruct (encode_fault s') eqn:Henc; [discriminate|].
    intros [= ->]. eauto.
  - intros (items & -> & -> & ->). reflexivity.
Qed.

(** C2, amended. Let a message count as well-formed when it decodes to a
    JSON object whose ['text'] is a string that the encoding of the file
    can encode, and let the destination be a path that can be opened for
    appending.  Then after any sequence of inbound messages the file
    holds what it held before followed by the texts of the well-formed
    messages, in arrival order and with nothing between them; every
    other message leaves the file as it is and has one line
    [Error on data ...] printed; [on_data] returns [True] on every
    message, so the session is still listening. *)
Theorem stream_writes_texts (filename : string) (inbound : list string)
    (w : world V) :
  files w !! filename <> Some Dir ->
  open_fault filename = None ->
  exists w',
    stream filename StdOutListener.listening inbound w
      = (Return StdOutListener.listening, w') /\
    file_content (files w') filename
      = file_content (files w) filename
        +:+ written json_loads encode_fault inbound /\
    stdout w' = stdout w ++ complaints json_loads encode_fault inbound /\
    length (complaints json_loads encode_fault inbound)
      = length (skipped json_loads encode_fault inbound) /\
    (forall raw_data s,
       the_text raw_data = Some s <->
       exists items,
         json_loads raw_data = Return (JDict items) /\
         dict_get items "text" = Some (JStr s) /\
         encode_fault s = None) /\
    (forall raw_data (w0 : world V),
       fst (on_data filename raw_data w0) = Return true).
Proof.
  intros Hopen Hfault.
  destruct (stream_listening filename inbound w Hopen Hfault)
    as (w' & Hrun & _ & Hfile & Hout & _).
  exists w'. repeat apply conj; auto using complaints_skipped.
  - apply text_of_well_formed.
  - intros raw_data w0. apply on_data_returns_true.
Qed.

End Stream.

(** ** The posting actions of the front end *)

Section Presentation.

Context {V : Type} (api : API V).

Lemma truthy_nonempty (s : string) : s <> "" -> truthy s = true.
Proof. destruct s; [congruence|reflexivity]. Qed.

(** A write operation whose result is dropped returns and leaves the
    widgets alone, whatever the vendor answers. *)
Lemma write_outcome_dropped (a : adapter_call) (c : vendor_call)
    (answer : result unit * V) (w : world V) :
  exists w',
    (let (r, w1) := write_outcome a c answer w in
     match r with
     | Return _ => (Return tt, w1)
     | Raise e => (Raise e, w1)
     end) = (Return tt, w') /\
    tk w' = tk w.
Proof. destruct answer as [[u|e] v']; eexists; split; reflexivity. Qed.

(** The loops of the two actions return, and leave the widgets alone,
    for every selection and every behaviour of the vendor. *)
Lemma post_text_loop_returns (text : string) (names : list string) :
  forall w : world V,
    exists w',
      for_each names (post_text_body api text) w = (Return tt, w') /\
      tk w' = tk w.
Proof.
  induction names as [|name names IH]; intros w; [now exists w|].
  cbn [for_each]. unfold bind at 1, post_text_body at 1.
  destruct (String.eqb name "Twitter").
  - unfold bind at 1, Twitter.post_text. rewrite guarded_call.
    destruct (write_outcome_dropped (a_post_text text) (c_update_status text)
                (update_status api text (vendor w)) w) as (w1 & Hrun & Htk).
    destruct (write_outcome _ _ _ w) as [[b|e] w1'] eqn:Hout;
      cbn [ret] in *; inversion Hrun; subst w1'.
    destruct (IH w1) as (w2 & Hrun2 & Htk2).
    exists w2. split; [exact Hrun2|congruence].
  - cbn [ret]. apply IH.
Qed.

Lemma post_pic_loop_returns (url text : string) (names : list string) :
  forall w : world V,
    exists w',
      for_each names (post_pic_body api url text) w = (Return tt, w') /\
      tk w' = tk w.
Proof.
  induction names as [|name names IH]; intros w; [now exists w|].
  cbn [for_each]. unfold bind at 1, post_pic_body at 1.
  destruct (String.eqb name "Twitter").
  - unfold bind at 1, Twitter.post_photo. rewrite guarded_call.
    destruct (write_outcome_dropped (a_post_photo url text)
                (c_update_with_media url text)
                (update_with_media api url text (vendor w)) w)
      as (w1 & Hrun & Htk).
    destruct (write_outcome _ _ _ w) as [[b|e] w1'] eqn:Hout;
      cbn [ret] in *; inversion Hrun; subst w1'.
    destruct (IH w1) as (w2 & Hrun2 & Htk2).
    exists w2. split; [exact Hrun2|congruence].
  - cbn [ret]. apply IH.
Qed.

(** With a text typed and a selection the list box can hold, [post_text]
    ends with an empty status field: no answer of the vendor shows. *)
Lemma post_text_status_empty (w : world V) (names : list string) :
  typed_text w <> "" ->
  GUI.api_list (api_box (tk w)) = Return names ->
  exists w',
    GUI.post_text api w = (Return tt, w') /\ io_error (tk w') = "".
Proof.
  intros Htext Hsel.
  unfold GUI.post_text, GUI.text_box_get, GUI.io_error_set, GUI.api_iterator.
  run. fold (typed_text w).
  rewrite (truthy_nonempty _ Htext). cbn [negb api_box]. rewrite Hsel.
  match goal with
  | |- context [for_each names ?body ?w0] =>
      destruct (post_text_loop_returns (typed_text w) names w0)
        as (w' & Hrun & Htk);
      change body with (post_text_body api (typed_text w))
  end.
  rewrite Hrun. exists w'. split; [reflexivity|]. now rewrite Htk.
Qed.

(** A row the dict [api_cache] does not know is the one way to the
    handler of [post_text]. *)
Lemma post_text_unknown_row (w : world V) (e : exn) :
  typed_text w <> "" ->
  GUI.api_list (api_box (tk w)) = Raise e ->
  GUI.post_text api w
    = (Return tt, with_io_error "An API failed to post text" w).
Proof.
  intros Htext Hsel.
  unfold GUI.post_text, GUI.text_box_get, GUI.io_error_set, GUI.api_iterator.
  run. fold (typed_text w).
  rewrite (truthy_nonempty _ Htext). cbn [negb api_box]. rewrite Hsel.
  assert (is_Exception e = true) as ->; [|reflexivity].
  revert e Hsel. induction (api_box (tk w)) as [|code codes IH];
    intros e; cbn [GUI.api_list]; [discriminate|].
  destruct (GUI.api_cache code); [|intros [= <-]; reflexivity].
  destruct (GUI.api_list codes); [discriminate|].
  intros [= <-]. now apply IH.
Qed.

(** C4. What the code does when the vendor fails: with Twitter selected,
    a vendor call that raises [e] is swallowed by the adapter, which
    prints [e] and returns [False]; the action drops that result and
    returns with the status field empty.  The fixed string is not shown,
    neither by [post_text] nor by [post_pic]. *)
Theorem gui_hides_vendor_failure (w : world V) (e : exn) (v' : V) :
  api_box (tk w) = [3] ->
  (typed_text w <> "" ->
   update_status api (typed_text w) (vendor w) = (Raise e, v') ->
   exists w',
     GUI.post_text api w = (Return tt, w') /\
     io_error (tk w') = "" /\
     stdout w' = stdout w ++ [exn_str e]) /\
  (filepath (tk w) <> "No file uploaded" ->
   update_with_media api (filepath (tk w)) (text_box (tk w) +:+ GUI.newline)
                     (vendor w) = (Raise e, v') ->
   exists w',
     GUI.post_pic api w = (Return tt, w') /\
     io_error (tk w') = "" /\
     stdout w' = stdout w ++ [exn_str e]).
Proof.
  intros Hsel. split.
  - intros Htext Hfail.
    unfold GUI.post_text, GUI.text_box_get, GUI.io_error_set,
           GUI.api_iterator, Twitter.post_text.
    run. fold (typed_text w).
    rewrite (truthy_nonempty _ Htext). cbn [negb api_box]. rewrite Hsel.
    cbn [GUI.api_list GUI.api_cache for_each String.eqb Ascii.eqb Bool.eqb].
    run. rewrite Hfail. run.
    eexists. repeat split.
  - intros Hfile Hfail.
    unfold GUI.post_pic, GUI.text_box_get, GUI.filepath_get,
           GUI.io_error_set, GUI.api_iterator, Twitter.post_photo.
    run. cbn [filepath].
    apply String.eqb_neq in Hfile. rewrite Hfile. cbn [api_box]. rewrite Hsel.
    cbn [GUI.api_list GUI.api_cache for_each String.eqb Ascii.eqb Bool.eqb].
    run. rewrite Hfail. run.
    eexists. repeat split.
Qed.

(** C7. When the text is empty once stripped, [post_text] sets the
    status field to [Error: no text found] and returns: nothing else in
    the world changes, no method of the adapter is entered and no vendor
    call is made. *)
Theorem post_text_empty_short_circuit (w : world V) :
  typed_text w = "" ->
  GUI.post_text api w = (Return tt, with_io_error "Error: no text found" w) /\
  adapter_calls (snd (GUI.post_text api w)) = adapter_calls w /\
  vendor_calls (snd (GUI.post_text api w)) = vendor_calls w /\
  vendor (snd (GUI.post_text api w)) = vendor w.
Proof.
  intros Htext.
  assert (GUI.post_text api w
          = (Return tt, with_io_error "Error: no text found" w)) as ->.
  { unfold GUI.post_text, GUI.text_box_get, GUI.io_error_set.
    run. fold (typed_text w). now rewrite Htext. }
  repeat split.
Qed.

(** C10. With a text typed and no platform selected, [post_text] sets
    the status field to the empty string and returns: no method of the
    adapter is entered and no vendor call is made.  The status field is
    then what it is after a post that Twitter accepted. *)
Theorem post_text_no_selection_silent (w : world V) :
  typed_text w <> "" ->
  api_box (tk w) = [] ->
  GUI.post_text api w = (Return tt, with_io_error "" w) /\
  adapter_calls (snd (GUI.post_text api w)) = adapter_calls w /\
  vendor_calls (snd (GUI.post_text api w)) = vendor_calls w /\
  vendor (snd (GUI.post_text api w)) = vendor w /\
  forall (w2 : world V) (v2 : V),
    typed_text w2 <> "" ->
    api_box (tk w2) = [3] ->
    update_status api (typed_text w2) (vendor w2) = (Return tt, v2) ->
    io_error (tk (snd (GUI.post_text api w2)))
      = io_error (tk (snd (GUI.post_text api w))).
Proof.
  intros Htext Hsel.
  assert (GUI.post_text api w = (Return tt, with_io_error "" w)) as ->.
  { unfold GUI.post_text, GUI.text_box_get, GUI.io_error_set, GUI.api_iterator.
    run. fold (typed_text w).
    rewrite (truthy_nonempty _ Htext). cbn [negb api_box].
    unfold with_io_error. now rewrite Hsel. }
  repeat split.
  intros w2 v2 Htext2 Hsel2 Hok.
  destruct (post_text_status_empty w2 ["Twitter"] Htext2) as (w' & Hrun & Hio);
    [now rewrite Hsel2|].
  rewrite Hrun. cbn [snd]. now rewrite Hio.
Qed.

End Presentation.

(** ** Runs on the simulated vendor *)

(** 250 followers: all are returned, after two pauses. *)
Lemma get_user_followers_pagination_witness :
  followers Sim.api "alice" (vendor Sim.world0)
    = (cursor_of Sim.crowd, Sim.spend Sim.service0) /\
  exists w',
    Twitter.get_user_followers Sim.api "alice" Sim.world0
      = (Return (map screen_name Sim.crowd), w') /\
    sleeps w' = [1; 1].
Proof.
  split; [reflexivity|].
  destruct (get_user_followers_pagination Sim.api "alice" Sim.world0
              Sim.crowd (Sim.spend Sim.service0) eq_refl)
    as (w' & Hrun & Hsleeps & _).
  exists w'. split; [exact Hrun|exact Hsleeps].
Defined.

(** Six messages under an ASCII locale: two have a text that is
    written; the notice, the number, the accent and the garbage are
    skipped, each with its complaint. *)
Lemma stream_writes_texts_witness :
  files Sim.world0 !! Sim.session_file <> Some Dir /\
  Sim.open_fault Sim.session_file = None /\
  exists w',
    StdOutListener.stream Sim.json_loads_accent Sim.open_fault Sim.ascii_fault
                          Sim.session_file StdOutListener.listening
                          Sim.accent_session Sim.world0
      = (Return StdOutListener.listening, w') /\
    StdOutListener.file_content (files w') Sim.session_file = "hihi" /\
    stdout w' = ["Error on data 'text'";
                 "Error on data write() argument must be str, not int";
                 "Error on data 'ascii' codec can't encode character '\xe9' in position 0: ordinal not in range(128)";
                 "Error on data Expecting value: line 1 column 1 (char 0)"].
Proof.
  assert (files Sim.world0 !! Sim.session_file <> Some Dir) as Hopen
    by (vm_compute; discriminate).
  split; [exact Hopen|]. split; [reflexivity|].
  destruct (stream_writes_texts Sim.json_loads_accent Sim.open_fault
              Sim.ascii_fault Sim.session_file Sim.accent_session Sim.world0
              Hopen eq_refl)
    as (w' & Hrun & Hfile & Hout & _).
  exists w'. split; [exact Hrun|]. split; [exact Hfile|exact Hout].
Defined.

(** C2, as stated, fails on a message that is valid JSON with a ['text']
    field that is a number, on a file that can be opened and under an
    encoding that takes every text: the claim counts the message as
    well-formed, so no complaint is due; the code writes nothing for it
    and prints a complaint, as for a malformed message. *)
Lemma stream_claim_counterexample :
  claimed_well_formed Sim.json_loads Sim.raw_number = true /\
  StdOutListener.stream Sim.json_loads Sim.open_fault Sim.utf8_fault
                        Sim.session_file StdOutListener.listening
                        [Sim.raw_number] Sim.world0
    = (Return StdOutListener.listening,
       World Sim.service0 [] []
             ["Error on data write() argument must be str, not int"] []
             {[Sim.session_file := File ""]} Sim.widgets0) /\
  ~ stream_claim_as_stated Sim.json_loads Sim.open_fault Sim.utf8_fault.
Proof.
  split; [reflexivity|]. split; [reflexivity|].
  intros Hclaim.
  destruct (Hclaim Sim.service Sim.session_file [Sim.raw_number] Sim.world0)
    as (w' & pieces & Hrun & _ & _ & Hout).
  - vm_compute; discriminate.
  - reflexivity.
  - vm_compute in Hrun. injection Hrun as <-. vm_compute in Hout.
    discriminate.
Qed.

(** The service is down and Twitter is selected: both actions return
    with the status field empty. *)
Lemma gui_hides_vendor_failure_witness :
  api_box (tk (Sim.world_credit 0)) = [3] /\
  typed_text (Sim.world_credit 0) <> "" /\
  filepath (tk (Sim.world_credit 0)) <> "No file uploaded" /\
  (exists w',
     GUI.post_text Sim.api (Sim.world_credit 0) = (Return tt, w') /\
     io_error (tk w') = "" /\
     stdout w' = ["Failed to send request"]) /\
  (exists w',
     GUI.post_pic Sim.api (Sim.world_credit 0) = (Return tt, w') /\
     io_error (tk w') = "" /\
     stdout w' = ["Failed to send request"]).
Proof.
  assert (typed_text (Sim.world_credit 0) <> "") as Htext
    by (vm_compute; discriminate).
  assert (filepath (tk (Sim.world_credit 0)) <> "No file uploaded") as Hfile
    by (vm_compute; discriminate).
  destruct (gui_hides_vendor_failure Sim.api (Sim.world_credit 0)
              Sim.down_error (vendor (Sim.world_credit 0)) eq_refl)
    as [Htext_action Hpic_action].
  split; [reflexivity|]. split; [exact Htext|]. split; [exact Hfile|].
  split.
  - exact (Htext_action Htext eq_refl).
  - exact (Hpic_action Hfile eq_refl).
Defined.

(** The service goes down before the first, the second or the third
    call of a read operation, or while the cursor is read. *)
Lemma read_operations_propagate_witness :
  fst (Twitter.id Sim.api (Sim.world_credit 0)) = Raise Sim.down_error /\
  fst (Twitter.bio Sim.api (Sim.world_credit 0)) = Raise Sim.down_error /\
  fst (Twitter.latest_favorites Sim.api (Sim.world_credit 0))
    = Raise Sim.down_error /\
  fst (Twitter.latest_favorites Sim.api (Sim.world_credit 1))
    = Raise Sim.down_error /\
  fst (Twitter.latest_retweets Sim.api (Sim.world_credit 2))
    = Raise Sim.down_error /\
  fst (Twitter.favorites_on Sim.api 101 (Sim.world_credit 0))
    = Raise Sim.down_error /\
  fst (Twitter.username Sim.user_info (Sim.world_credit 0))
    = Raise Sim.down_error /\
  fst (Twitter.get_user_followers Sim.api "alice" (Sim.world_credit 1))
    = Raise Sim.down_error.
Proof.
  pose proof (read_operations_propagate Sim.api Sim.user_info
                (Sim.world_credit 0) Sim.down_error)
    as (Hme & _ & _ & Hstatus & Hinfo & _).
  pose proof (read_operations_propagate Sim.api Sim.user_info
                (Sim.world_credit 1) Sim.down_error)
    as (_ & Htimeline & _ & _ & _ & Hcursor).
  pose proof (read_operations_propagate Sim.api Sim.user_info
                (Sim.world_credit 2) Sim.down_error)
    as (_ & _ & Hlatest & _).
  destruct (Hme _ eq_refl) as (Hid & Hbio & _ & Hfav & _).
  destruct (Htimeline _ _ _ eq_refl eq_refl) as (_ & Hfav1 & _).
  destruct (Hlatest _ _ _ _ _ _ eq_refl eq_refl eq_refl) as (_ & Hret2).
  destruct (Hstatus 101 _ eq_refl) as (Hon & _).
  split; [exact Hid|]. split; [exact Hbio|]. split; [exact Hfav|].
  split; [exact Hfav1|]. split; [exact Hret2|]. split; [exact Hon|].
  split.
  - exact (Hinfo _ eq_refl).
  - exact (Hcursor "alice" [Sim.bob] _ eq_refl).
Defined.

(** An account with two posts, and an account with none. *)
Lemma latest_counts_need_a_post_witness :
  me Sim.api (vendor Sim.world0) = (Return Sim.alice, Sim.spend Sim.service0) /\
  fst (Twitter.last_tweet Sim.api Sim.world0) = Return Sim.tweet1 /\
  fst (Twitter.latest_favorites Sim.api Sim.world0) = Return 4 /\
  fst (Twitter.latest_retweets Sim.api Sim.world0) = Return 2 /\
  fst (Twitter.latest_favorites Sim.api Sim.world_no_post)
    = Raise (Exn IndexError "list index out of range") /\
  fst (Twitter.latest_retweets Sim.api Sim.world_no_post)
    = Raise (Exn IndexError "list index out of range").
Proof.
  split; [reflexivity|].
  destruct (latest_counts_need_a_post Sim.api Sim.world0 Sim.alice _ eq_refl)
    as [Hposts _].
  destruct (latest_counts_need_a_post Sim.api Sim.world_no_post Sim.alice _
              eq_refl)
    as [_ Hnone].
  destruct (Hposts Sim.tweet1 [] _ Sim.tweet1 _ eq_refl eq_refl)
    as (Hlast & Hfav & Hret).
  destruct (Hnone _ eq_refl) as (_ & Hfav0 & Hret0).
  split; [exact Hlast|]. split; [exact Hfav|]. split; [exact Hret|].
  split; [exact Hfav0|exact Hret0].
Defined.

(** Blanks in the text box. *)
Lemma post_text_empty_short_circuit_witness :
  typed_text Sim.world_blank = "" /\
  GUI.post_text Sim.api Sim.world_blank
    = (Return tt, with_io_error "Error: no text found" Sim.world_blank) /\
  adapter_calls (snd (GUI.post_text Sim.api Sim.world_blank)) = [] /\
  vendor_calls (snd (GUI.post_text Sim.api Sim.world_blank)) = [].
Proof.
  split; [reflexivity|].
  destruct (post_text_empty_short_circuit Sim.api Sim.world_blank eq_refl)
    as (Hrun & Hadapter & Hvendor & _).
  split; [exact Hrun|]. split; [exact Hadapter|exact Hvendor].
Defined.

(** A text and no selection. *)
Lemma post_text_no_selection_silent_witness :
  typed_text Sim.world_unselected <> "" /\
  api_box (tk Sim.world_unselected) = [] /\
  GUI.post_text Sim.api Sim.world_unselected
    = (Return tt, with_io_error "" Sim.world_unselected) /\
  io_error (tk (snd (GUI.post_text Sim.api Sim.world0)))
    = io_error (tk (snd (GUI.post_text Sim.api Sim.world_unselected))).
Proof.
  assert (typed_text Sim.world_unselected <> "") as Htext
    by (vm_compute; discriminate).
  assert (typed_text Sim.world0 <> "") as Htext0
    by (vm_compute; discriminate).
  destruct (post_text_no_selection_silent Sim.api Sim.world_unselected
              Htext eq_refl)
    as (Hrun & _ & _ & _ & Hsame).
  split; [exact Htext|]. split; [reflexivity|]. split; [exact Hrun|].
  exact (Hsame Sim.world0 _ Htext0 eq_refl eq_refl).
Defined.

(** ** Further properties of the adapter *)

Section FollowersFailure.

Context {V : Type} (api : API V).

Lemma cursor_broken_app (items : list user) (e : exn) :
  cursor_broken items e = cursor_app items (Broken e).
Proof. induction items as [|u items IH]; cbn; congruence. Qed.

(** The loop over a cursor that yields [items] and goes on as [c]. *)
Lemma followers_loop_cursor_app (items : list user) (c : cursor) :
  forall (acc : list string) (i : Z) (w : world V),
    0 <= i < 100 ->
    Twitter.followers_loop (cursor_app items c) acc i w =
    Twitter.followers_loop c
      (acc ++ map screen_name items)
      ((i + Z.of_nat (length items)) mod 100)
      (slept (pauses ((i + Z.of_nat (length items)) / 100)) w).
Proof.
  induction items as [|u items IH]; intros acc i w Hi.
  - cbn [cursor_app map length Z.of_nat].
    rewrite Z.add_0_r, Z.mod_small, Z.div_small by lia.
    now rewrite app_nil_r, slept_nil.
  - cbn [cursor_app map length Twitter.followers_loop].
    rewrite Nat2Z.inj_succ.
    destruct (Z.leb_spec 100 (i + 1)) as [Hge|Hlt].
    + assert (i = 99) by lia; subst i.
      unfold bind at 1, sleep at 1.
      rewrite IH by lia.
      replace (99 + Z.succ (Z.of_nat (length items)))
        with (0 + Z.of_nat (length items) + 1 * 100) by lia.
      rewrite Z_mod_plus_full, Z.div_add by lia.
      rewrite <- app_assoc. cbn [app].
      rewrite (Z.add_comm _ 1), pauses_succ by (apply Z.div_pos; lia).
      change (1 :: pauses ((0 + Z.of_nat (length items)) / 100))
        with ([1] ++ pauses ((0 + Z.of_nat (length items)) / 100)).
      now rewrite <- slept_slept.
    + rewrite IH by lia.
      replace (i + 1 + Z.of_nat (length items))
        with (i + Z.succ (Z.of_nat (length items))) by lia.
      now rewrite <- app_assoc.
Qed.

(** X1. When the follower cursor breaks with [e] after [n] items,
    [get_user_followers] raises [e] and hands back none of the names it
    gathered; the [n / 100] pauses due for those items have been taken,
    and nothing was printed. *)
Theorem get_user_followers_broken (text : string) (w : world V)
    (items : list user) (e : exn) (v' : V) :
  followers api text (vendor w) = (cursor_broken items e, v') ->
  Twitter.get_user_followers api text w
    = (Raise e,
       slept (pauses (Z.of_nat (length items) / 100))
             (called (c_followers text) v'
                     (entered (a_get_user_followers text) w))).
Proof.
  intros Hcur.
  unfold Twitter.get_user_followers. run. rewrite Hcur.
  rewrite cursor_broken_app, followers_loop_cursor_app by lia.
  reflexivity.
Qed.

End FollowersFailure.

Section StreamMore.

Context {V : Type}.
Variable json_loads : string -> result json.
Variable open_fault : string -> option exn.
Variable encode_fault : string -> option exn.

Local Abbreviation on_data :=
  (StdOutListener.on_data json_loads open_fault encode_fault).
Local Abbreviation stream :=
  (StdOutListener.stream json_loads open_fault encode_fault).
Local Abbreviation file_content := StdOutListener.file_content.
Local Abbreviation the_text := (text_of json_loads encode_fault).
Local Abbreviation the_written := (written json_loads encode_fault).
Local Abbreviation the_complaints := (complaints json_loads encode_fault).

Lemma written_app (a b : list string) :
  the_written (a ++ b) = the_written a +:+ the_written b.
Proof.
  induction a as [|raw a IH]; [reflexivity|].
  cbn [app written]. destruct (the_text raw); [|exact IH].
  now rewrite IH, append_assoc.
Qed.

Lemma complaints_app (a b : list string) :
  the_complaints (a ++ b) = the_complaints a ++ the_complaints b.
Proof.
  induction a as [|raw a IH]; [reflexivity|].
  cbn [app complaints].
  destruct (failure json_loads encode_fault raw); [|exact IH].
  now rewrite IH.
Qed.

(** X2. The file is opened for appending, so sessions add up: on a
    destination that can be opened, a session over [first] followed by a
    session over [second] on the same file leaves the world that one
    session over [first ++ second] leaves, and the file then holds its
    old content, the texts written of [first] and those of [second],
    where a text is written when it is a string the encoding of the file
    can encode. *)
Theorem stream_sessions_add_up (filename : string)
    (first second : list string) (w : world V) :
  files w !! filename <> Some Dir ->
  open_fault filename = None ->
  exists w1 w2,
    stream filename StdOutListener.listening first w
      = (Return StdOutListener.listening, w1) /\
    stream filename StdOutListener.listening second w1
      = (Return StdOutListener.listening, w2) /\
    stream filename StdOutListener.listening (first ++ second) w
      = (Return StdOutListener.listening, w2) /\
    file_content (files w2) filename
      = file_content (files w) filename
        +:+ the_written first +:+ the_written second /\
    stdout w2 = stdout w ++ the_complaints first ++ the_complaints second.
Proof.
  intros Hopen Hfault.
  destruct (stream_listening json_loads open_fault encode_fault
              filename first w Hopen Hfault)
    as (w1 & Hrun1 & Hopen1 & Hfile1 & Hout1 & _).
  destruct (stream_listening json_loads open_fault encode_fault
              filename second w1 Hopen1 Hfault)
    as (w2 & Hrun2 & _ & Hfile2 & Hout2 & _).
  exists w1, w2. repeat apply conj; auto.
  - clear Hfile1 Hout1 Hfile2 Hout2 Hopen Hopen1.
    revert w Hrun1. induction first as [|raw first IH]; intros w Hrun1.
    + cbn in Hrun1. injection Hrun1 as ->. exact Hrun2.
    + cbn [app StdOutListener.stream] in *.
      unfold bind at 1. unfold bind at 1 in Hrun1.
      destruct (StdOutListener.deliver json_loads open_fault encode_fault
                  filename StdOutListener.listening raw w)
        as [[st|e] w0] eqn:Hd; [|discriminate].
      unfold StdOutListener.deliver, bind in Hd.
      pose proof (on_data_returns_true json_loads open_fault encode_fault
                    filename raw w) as Htrue.
      destruct (StdOutListener.on_data json_loads open_fault encode_fault
                  filename raw w) as [[keep|e] w0'].
      * cbn in Htrue. injection Htrue as ->. cbn in Hd.
        injection Hd as <- <-. now apply IH.
      * discriminate.
  - now rewrite Hfile2, Hfile1, append_assoc.
  - now rewrite Hout2, Hout1, app_assoc.
Qed.

(** X3. [on_data] opens the file before it looks at the message.  On a
    path that does not exist yet and that [open] can create, any message
    creates the file, with the text of the message when that is a string
    the encoding of the file can encode, and empty otherwise; on a path
    that [open] cannot create, no message creates anything. *)
Theorem on_data_creates_file (filename raw_data : string) (w : world V) :
  files w !! filename = None ->
  (open_fault filename = None ->
   files (snd (on_data filename raw_data w)) !! filename
     = Some (File (match the_text raw_data with
                   | Some s => s
                   | None => ""
                   end))) /\
  (forall e,
     open_fault filename = Some e ->
     files (snd (on_data filename raw_data w)) = files w).
Proof.
  intros Hnew.
  unfold StdOutListener.on_data, StdOutListener.open_append,
         StdOutListener.write, text_of.
  run. rewrite Hnew. split.
  - intros Hfault. rewrite Hfault. run.
    destruct (json_loads raw_data) as [[| | | | |?|items]|?];
      cbn [getitem]; run; try now rewrite lookup_insert_eq.
    destruct (dict_get items "text") as [[| | | |s| |]|]; run;
      try now rewrite lookup_insert_eq.
    destruct (encode_fault s) as [?|]; run; rewrite lookup_insert_eq;
      [reflexivity|].
    unfold StdOutListener.file_content. now rewrite lookup_insert_eq.
  - intros e Hfault. rewrite Hfault. reflexivity.
Qed.

(** One message when the destination is a directory. *)
Lemma on_data_directory (filename raw_data : string) (w : world V) :
  files w !! filename = Some Dir ->
  on_data filename raw_data w
    = (Return true,
       printed ["Error on data [Errno 21] Is a directory: "
                +:+ quote filename] w).
Proof.
  intros Hdir.
  unfold StdOutListener.on_data, StdOutListener.open_append.
  run. rewrite Hdir. reflexivity.
Qed.

Lemma printed_printed (p q : list string) (w : world V) :
  printed q (printed p w) = printed (p ++ q) w.
Proof. unfold printed; cbn. now rewrite app_assoc. Qed.

Lemma printed_nil (w : world V) : printed [] w = w.
Proof. destruct w; unfold printed; cbn. now rewrite app_nil_r. Qed.

(** X4. When the destination is a directory the session loses every
    message, the well-formed ones too: for each inbound message one line
    is printed that says so, nothing is written anywhere, and the session
    is still listening. *)
Theorem stream_into_directory (filename : string) (inbound : list string)
    (w : world V) :
  files w !! filename = Some Dir ->
  stream filename StdOutListener.listening inbound w
    = (Return StdOutListener.listening,
       printed (map (fun _ => "Error on data [Errno 21] Is a directory: "
                              +:+ quote filename) inbound) w).
Proof.
  revert w. induction inbound as [|raw inbound IH]; intros w Hdir.
  - cbn. now rewrite printed_nil.
  - cbn [StdOutListener.stream StdOutListener.deliver map].
    unfold bind at 1 2. rewrite (on_data_directory _ _ _ Hdir). cbn [ret].
    rewrite IH by exact Hdir.
    change (?x :: map ?f inbound) with ([x] ++ map f inbound).
    now rewrite printed_printed.
Qed.

(** [on_data] leaves alone all but the standard output and the
    destination file. *)
Lemma on_data_frame (filename raw_data : string) (w : world V) :
  let w' := snd (on_data filename raw_data w) in
  vendor w' = vendor w /\
  vendor_calls w' = vendor_calls w /\
  adapter_calls w' = adapter_calls w /\
  sleeps w' = sleeps w /\
  tk w' = tk w /\
  forall path, path <> filename -> files w' !! path = files w !! path.
Proof.
  unfold StdOutListener.on_data, StdOutListener.open_append,
         StdOutListener.write.
  run.
  destruct (files w !! filename) as [[content|]|] eqn:Hfile; run;
    try (repeat apply conj; reflexivity);
    (destruct (open_fault filename) as [?|]; run;
     [repeat apply conj; reflexivity|]);
    (destruct (json_loads raw_data) as [[| | | | |?|?]|?];
     cbn [getitem]; run);
    repeat match goal with
    | |- context [dict_get ?items "text"] =>
        destruct (dict_get items "text") as [[| | | |?| |]|]; run
    | |- context [encode_fault ?s] =>
        destruct (encode_fault s) as [?|]; run
    end;
    repeat apply conj; try reflexivity;
    try (intros path Hpath; rewrite ?lookup_insert_ne by congruence;
         reflexivity).
Qed.

Lemma stream_cons_listening (filename raw_data : string)
    (inbound : list string) (w w1 : world V) (keep : bool) :
  on_data filename raw_data w = (Return keep, w1) ->
  stream filename StdOutListener.listening (raw_data :: inbound) w
  = stream filename
           (if keep then StdOutListener.listening else StdOutListener.stopped)
           inbound w1.
Proof.
  intros Hod. cbn [StdOutListener.stream StdOutListener.deliver].
  unfold bind at 1 2. now rewrite Hod.
Qed.

Lemma stream_cons_stopped (filename raw_data : string)
    (inbound : list string) (w : world V) :
  stream filename StdOutListener.stopped (raw_data :: inbound) w
  = stream filename StdOutListener.stopped inbound w.
Proof. reflexivity. Qed.

(** X5. A stream session makes no vendor call, enters no method of the
    adapter, takes no pause and touches neither the widgets nor any file
    but its destination, whatever the messages and whether or not the
    destination can be opened. *)
Theorem stream_frame (filename : string) (inbound : list string) :
  forall (st : StdOutListener.session) (w : world V),
    let w' := snd (stream filename st inbound w) in
    vendor w' = vendor w /\
    vendor_calls w' = vendor_calls w /\
    adapter_calls w' = adapter_calls w /\
    sleeps w' = sleeps w /\
    tk w' = tk w /\
    forall path, path <> filename -> files w' !! path = files w !! path.
Proof.
  induction inbound as [|raw inbound IH]; intros st w.
  - cbn. repeat split.
  - destruct st.
    + pose proof (on_data_frame filename raw w) as Hstep.
      pose proof (on_data_returns_true json_loads open_fault encode_fault
                    filename raw w) as Htrue.
      destruct (StdOutListener.on_data json_loads open_fault encode_fault
                  filename raw w)
        as [[keep|e] w1] eqn:Hod; [|discriminate].
      rewrite (stream_cons_listening _ _ inbound _ _ _ Hod).
      cbv zeta in Hstep. cbn [snd] in Hstep.
      destruct Hstep as (H1 & H2 & H3 & H4 & H5 & H6).
      pose proof (IH (if keep then StdOutListener.listening
                      else StdOutListener.stopped) w1) as G.
      cbv zeta in G. destruct G as (G1 & G2 & G3 & G4 & G5 & G6).
      cbv zeta. repeat apply conj; try congruence.
      intros path Hpath. rewrite G6, H6; auto.
    + rewrite stream_cons_stopped. apply IH.
Qed.

End StreamMore.

(** ** Further properties of the front end *)

Section Selection.

Lemma api_cache_range (code : Z) (name : string) :
  GUI.api_cache code = Some name -> 0 <= code < 8.
Proof.
  destruct code as [|p|p]; cbn; try discriminate; [lia|].
  destruct p as [[[p|p|]|[p|p|]|]|[[p|p|]|[p|p|]|]|]; cbn;
    try discriminate; lia.
Qed.

Lemma small_code (code : Z) :
  0 <= code < 8 ->
  code = 0 \/ code = 1 \/ code = 2 \/ code = 3 \/
  code = 4 \/ code = 5 \/ code = 6 \/ code = 7.
Proof. lia. Qed.

(** The dict of [api_iterator] against the rows of [setup_apis]. *)
Lemma api_cache_rows (code : Z) :
  GUI.api_cache code
  = if 0 <=? code then GUI.apis !! Z.to_nat code else None.
Proof.
  destruct (Z.leb_spec 0 code) as [Hpos|Hneg].
  - destruct (Z.lt_ge_cases code 8) as [Hlt|Hge].
    + destruct (small_code code) as [->|[->|[->|[->|[->|[->|[->| ->]]]]]]];
        [lia|reflexivity..].
    + rewrite (lookup_ge_None_2 GUI.apis) by (cbn; lia).
      destruct (GUI.api_cache code) as [name|] eqn:Hc; [|reflexivity].
      apply api_cache_range in Hc. lia.
  - destruct code; [lia|lia|reflexivity].
Qed.

Lemma api_cache_twitter (code : Z) (name : string) :
  GUI.api_cache code = Some name ->
  String.eqb name "Twitter" = (3 =? code).
Proof.
  intros Hc. pose proof (api_cache_range _ _ Hc) as Hr.
  destruct (small_code code Hr) as [->|[->|[->|[->|[->|[->|[->| ->]]]]]]];
    cbn in Hc; injection Hc as <-; reflexivity.
Qed.

(** The comprehension of [api_iterator] on a selection within the rows. *)
Lemma api_list_names (codes : list Z) :
  selectable codes ->
  exists names,
    GUI.api_list codes = Return names /\
    Forall2 (fun code name => GUI.apis !! Z.to_nat code = Some name)
            codes names /\
    twitter_names names = twitter_rows codes.
Proof.
  induction 1 as [|code codes Hcode Hcodes (names & Hrun & Hnames & Hcount)].
  - exists []. repeat split. constructor.
  - pose proof (api_cache_rows code) as Hrow.
    destruct (Z.leb_spec 0 code); [|lia].
    destruct (GUI.api_cache code) as [name|] eqn:Hc.
    + exists (name :: names). cbn [GUI.api_list]. rewrite Hc, Hrun.
      split; [reflexivity|]. split; [constructor; auto|].
      unfold twitter_names, twitter_rows in *. cbn [List.filter].
      rewrite (api_cache_twitter _ _ Hc).
      destruct (3 =? code); cbn [length]; now rewrite Hcount.
    + exfalso. symmetry in Hrow.
      apply lookup_ge_None_1 in Hrow. cbn in Hrow. lia.
Qed.

(** The code that makes the comprehension of [api_iterator] fail is the
    first one outside the rows. *)
Lemma api_list_first_unknown (known : list Z) (bad : Z) (rest : list Z) :
  selectable known ->
  ~ 0 <= bad < 8 ->
  GUI.api_list (known ++ bad :: rest) = Raise (Exn KeyError (pretty bad)).
Proof.
  intros Hknown Hbad.
  induction Hknown as [|code known Hcode Hknown IH].
  - cbn [app GUI.api_list].
    destruct (GUI.api_cache bad) as [name|] eqn:Hc; [|reflexivity].
    apply api_cache_range in Hc. lia.
  - cbn [app GUI.api_list]. rewrite IH.
    destruct (small_code code Hcode) as [->|[->|[->|[->|[->|[->|[->| ->]]]]]]];
      reflexivity.
Qed.

(** X6. The dict of [api_iterator] and the list box of [setup_apis]
    agree: the code of every row is mapped to the label shown in that
    row, and no other code is mapped. *)
Theorem api_cache_matches_rows (code : Z) :
  GUI.api_cache code
  = if 0 <=? code then GUI.apis !! Z.to_nat code else None.
Proof. apply api_cache_rows. Qed.

(** X7. A selection within the rows of the list box never makes
    [api_iterator] raise: it gives one label for each selected row, the
    label of that row, in the order of the selection. *)
Theorem api_iterator_selectable {V : Type} (w : world V) :
  selectable (api_box (tk w)) ->
  exists names,
    GUI.api_iterator w = (Return names, w) /\
    Forall2 (fun code name => GUI.apis !! Z.to_nat code = Some name)
            (api_box (tk w)) names.
Proof.
  intros Hsel.
  destruct (api_list_names _ Hsel) as (names & Hrun & Hrows & _).
  exists names. split; [|exact Hrows].
  unfold GUI.api_iterator. run. now rewrite Hrun.
Qed.

End Selection.

Section Posting.

Context {V : Type} (api : API V).

(** The loop of [post_text]: one call of the adapter, hence one call of
    the vendor, for each occurrence of Twitter; the widgets, the pauses
    and the files stay as they are. *)
Lemma post_text_loop_calls (text : string) (names : list string) :
  forall w : world V,
    exists w',
      for_each names (post_text_body api text) w = (Return tt, w') /\
      tk w' = tk w /\
      adapter_calls w'
        = adapter_calls w ++ replicate (twitter_names names) (a_post_text text) /\
      vendor_calls w'
        = vendor_calls w
          ++ replicate (twitter_names names) (c_update_status text) /\
      sleeps w' = sleeps w /\
      files w' = files w.
Proof.
  induction names as [|name names IH]; intros w.
  - exists w. cbn. now rewrite !app_nil_r.
  - cbn [for_each]. unfold bind at 1, post_text_body at 1.
    unfold twitter_names. cbn [List.filter].
    destruct (String.eqb name "Twitter").
    + unfold bind at 1, Twitter.post_text. rewrite guarded_call.
      unfold write_outcome.
      destruct (update_status api text (vendor w)) as [[u|e] v'];
        cbn [ret];
        match goal with
        | |- context [for_each names _ ?w1] =>
            destruct (IH w1) as (w2 & Hrun & Htk & Hac & Hvc & Hsl & Hfs)
        end;
        exists w2; rewrite Hrun, Htk, Hac, Hvc, Hsl, Hfs;
        cbn [tk adapter_calls vendor_calls sleeps files called entered
             printed length replicate];
        rewrite <- !app_assoc; repeat split.
    + cbn [ret]. apply IH.
Qed.

(** The same for [post_pic]. *)
Lemma post_pic_loop_calls (url text : string) (names : list string) :
  forall w : world V,
    exists w',
      for_each names (post_pic_body api url text) w = (Return tt, w') /\
      tk w' = tk w /\
      adapter_calls w'
        = adapter_calls w
          ++ replicate (twitter_names names) (a_post_photo url text) /\
      vendor_calls w'
        = vendor_calls w
          ++ replicate (twitter_names names) (c_update_with_media url text) /\
      sleeps w' = sleeps w /\
      files w' = files w.
Proof.
  induction names as [|name names IH]; intros w.
  - exists w. cbn. now rewrite !app_nil_r.
  - cbn [for_each]. unfold bind at 1, post_pic_body at 1.
    unfold twitter_names. cbn [List.filter].
    destruct (String.eqb name "Twitter").
    + unfold bind at 1, Twitter.post_photo. rewrite guarded_call.
      unfold write_outcome.
      destruct (update_with_media api url text (vendor w)) as [[u|e] v'];
        cbn [ret];
        match goal with
        | |- context [for_each names _ ?w1] =>
            destruct (IH w1) as (w2 & Hrun & Htk & Hac & Hvc & Hsl & Hfs)
        end;
        exists w2; rewrite Hrun, Htk, Hac, Hvc, Hsl, Hfs;
        cbn [tk adapter_calls vendor_calls sleeps files called entered
             printed length replicate];
        rewrite <- !app_assoc; repeat split.
    + cbn [ret]. apply IH.
Qed.

(** [post_text] past its first test, on a selection that gives names. *)
Lemma post_text_runs (w : world V) (names : list string) :
  typed_text w <> "" ->
  GUI.api_list (api_box (tk w)) = Return names ->
  exists w',
    GUI.post_text api w = (Return tt, w') /\
    tk w' = tk (with_io_error "" w) /\
    adapter_calls w'
      = adapter_calls w
        ++ replicate (twitter_names names) (a_post_text (typed_text w)) /\
    vendor_calls w'
      = vendor_calls w
        ++ replicate (twitter_names names) (c_update_status (typed_text w)) /\
    sleeps w' = sleeps w /\
    files w' = files w.
Proof.
  intros Htext Hsel.
  unfold GUI.post_text, GUI.text_box_get, GUI.io_error_set, GUI.api_iterator.
  run. fold (typed_text w).
  rewrite (truthy_nonempty _ Htext). cbn [negb api_box]. rewrite Hsel.
  match goal with
  | |- context [for_each names ?body ?w0] =>
      destruct (post_text_loop_calls (typed_text w) names w0)
        as (w' & Hrun & Htk & Hac & Hvc & Hsl & Hfs);
      change body with (post_text_body api (typed_text w))
  end.
  rewrite Hrun. exists w'. split; [reflexivity|].
  rewrite Htk, Hac, Hvc, Hsl, Hfs. repeat split.
Qed.

(** [post_pic] past its first test, on a selection that gives names. *)
Lemma post_pic_runs (w : world V) (names : list string) :
  filepath (tk w) <> "No file uploaded" ->
  GUI.api_list (api_box (tk w)) = Return names ->
  let url := filepath (tk w) in
  let text := text_box (tk w) +:+ GUI.newline in
  exists w',
    GUI.post_pic api w = (Return tt, w') /\
    tk w' = tk (with_io_error "" w) /\
    adapter_calls w'
      = adapter_calls w
        ++ replicate (twitter_names names) (a_post_photo url text) /\
    vendor_calls w'
      = vendor_calls w
        ++ replicate (twitter_names names) (c_update_with_media url text) /\
    sleeps w' = sleeps w /\
    files w' = files w.
Proof.
  intros Hfile Hsel url text.
  unfold GUI.post_pic, GUI.text_box_get, GUI.filepath_get,
         GUI.io_error_set, GUI.api_iterator.
  run. cbn [filepath].
  apply String.eqb_neq in Hfile. rewrite Hfile. cbn [api_box]. rewrite Hsel.
  match goal with
  | |- context [for_each names ?body ?w0] =>
      destruct (post_pic_loop_calls url text names w0)
        as (w' & Hrun & Htk & Hac & Hvc & Hsl & Hfs);
      change body with (post_pic_body api url text)
  end.
  rewrite Hrun. exists w'. split; [reflexivity|].
  rewrite Htk, Hac, Hvc, Hsl, Hfs. repeat split.
Qed.

End Posting.

Section Whitespace.

Lemma lstrip_head (s : string) (c : ascii) :
  head_char (lstrip s) = Some c -> isspace c = false.
Proof.
  induction s as [|a s IH]; cbn [lstrip]; [discriminate|].
  destruct (isspace a) eqn:Ha; [exact IH|].
  cbn. now intros [= <-].
Qed.

Lemma rstrip_head (s : string) (c : ascii) :
  head_char (rstrip s) = Some c -> head_char s = Some c.
Proof.
  destruct s as [|a s]; cbn [rstrip]; [discriminate|].
  destruct (rstrip s); [destruct (isspace a)|]; cbn; congruence.
Qed.

Lemma rstrip_last (s : string) (c : ascii) :
  last_char (rstrip s) = Some c -> isspace c = false.
Proof.
  induction s as [|a s IH]; cbn [rstrip]; [discriminate|].
  destruct (rstrip s) as [|b r] eqn:Hr.
  - destruct (isspace a) eqn:Ha; cbn; [discriminate|].
    now intros [= <-].
  - cbn [last_char]. exact IH.
Qed.

Lemma chars_app (s t : string) : chars (s +:+ t) = chars s ++ chars t.
Proof.
  induction s as [|a s IH]; [reflexivity|].
  change (a :: chars (s +:+ t) = a :: chars s ++ chars t). now rewrite IH.
Qed.

(** What [lstrip] drops is whitespace at the front. *)
Lemma lstrip_split (s : string) :
  exists front,
    s = front +:+ lstrip s /\ Forall (fun c => isspace c = true) (chars front).
Proof.
  induction s as [|a s (front & Hs & Hfront)]; cbn [lstrip].
  - exists "". split; [reflexivity|constructor].
  - destruct (isspace a) eqn:Ha.
    + exists (String a front). split.
      * change (String a s = String a (front +:+ lstrip s)). now rewrite <- Hs.
      * constructor; assumption.
    + exists "". split; [reflexivity|constructor].
Qed.

(** What [rstrip] drops is whitespace at the back. *)
Lemma rstrip_split (s : string) :
  exists back,
    s = rstrip s +:+ back /\ Forall (fun c => isspace c = true) (chars back).
Proof.
  induction s as [|a s (back & Hs & Hback)]; cbn [rstrip].
  - exists "". split; [reflexivity|constructor].
  - destruct (rstrip s) as [|b r] eqn:Hr.
    + change ("" +:+ back) with back in Hs. subst back.
      destruct (isspace a) eqn:Ha.
      * exists (String a s). split; [reflexivity|]. constructor; assumption.
      * exists s. split; [reflexivity|assumption].
    + exists back. split; [|assumption].
      change (String a s = String a (String b r +:+ back)). now rewrite <- Hs.
Qed.

End Whitespace.

Section Actions.

Context {V : Type} (api : API V).

Lemma api_list_raises_Exception (codes : list Z) (e : exn) :
  GUI.api_list codes = Raise e -> is_Exception e = true.
Proof.
  revert e. induction codes as [|code codes IH]; intros e;
    cbn [GUI.api_list]; [discriminate|].
  destruct (GUI.api_cache code); [|intros [= <-]; reflexivity].
  destruct (GUI.api_list codes); [discriminate|].
  intros [= <-]. now apply IH.
Qed.

Lemma post_text_blank (w : world V) :
  typed_text w = "" ->
  GUI.post_text api w = (Return tt, with_io_error "Error: no text found" w).
Proof.
  intros Htext.
  unfold GUI.post_text, GUI.text_box_get, GUI.io_error_set.
  run. fold (typed_text w). now rewrite Htext.
Qed.

Lemma post_pic_no_file (w : world V) :
  filepath (tk w) = "No file uploaded" ->
  GUI.post_pic api w = (Return tt, with_io_error "Error: no file found" w).
Proof.
  intros Hfile.
  unfold GUI.post_pic, GUI.text_box_get, GUI.filepath_get, GUI.io_error_set.
  run. cbn [filepath]. now rewrite Hfile.
Qed.

Lemma post_pic_unknown_row (w : world V) (e : exn) :
  filepath (tk w) <> "No file uploaded" ->
  GUI.api_list (api_box (tk w)) = Raise e ->
  GUI.post_pic api w
    = (Return tt, with_io_error "An API failed to post a photo" w).
Proof.
  intros Hfile Hsel.
  unfold GUI.post_pic, GUI.text_box_get, GUI.filepath_get,
         GUI.io_error_set, GUI.api_iterator.
  run. cbn [filepath].
  apply String.eqb_neq in Hfile. rewrite Hfile. cbn [api_box]. rewrite Hsel.
  now rewrite (api_list_raises_Exception _ _ Hsel).
Qed.

Lemma post_pic_selected (w : world V) :
  filepath (tk w) <> "No file uploaded" ->
  selectable (api_box (tk w)) ->
  exists w',
    GUI.post_pic api w = (Return tt, w') /\
    tk w' = tk (with_io_error "" w) /\
    vendor_calls w'
      = vendor_calls w
        ++ replicate (twitter_rows (api_box (tk w)))
                     (c_update_with_media
                        (filepath (tk w))
                        (text_box (tk w) +:+ GUI.newline)).
Proof.
  intros Hfile Hsel.
  destruct (api_list_names _ Hsel) as (names & Hlist & _ & Hcount).
  destruct (post_pic_runs api w names Hfile Hlist)
    as (w' & Hrun & Htk & _ & Hvc & _).
  exists w'. rewrite <- Hcount. repeat split; assumption.
Qed.

(** X8. When the selection holds a row the dict does not know, the list
    comprehension fails before the loop starts: [post_text] shows
    [An API failed to post text] and posts nothing at all, also when
    Twitter is among the rows selected. *)
Theorem post_text_unknown_row_posts_nothing (w : world V)
    (known : list Z) (bad : Z) (rest : list Z) :
  typed_text w <> "" ->
  api_box (tk w) = known ++ bad :: rest ->
  selectable known ->
  ~ 0 <= bad < 8 ->
  GUI.post_text api w
    = (Return tt, with_io_error "An API failed to post text" w) /\
  vendor_calls (snd (GUI.post_text api w)) = vendor_calls w /\
  adapter_calls (snd (GUI.post_text api w)) = adapter_calls w.
Proof.
  intros Htext Hsel Hknown Hbad.
  assert (GUI.post_text api w
          = (Return tt, with_io_error "An API failed to post text" w)) as ->.
  { apply post_text_unknown_row with (e := Exn KeyError (pretty bad));
      [exact Htext|].
    rewrite Hsel. now apply api_list_first_unknown. }
  repeat split.
Qed.

(** X9. [post_text] and [post_pic] return in every world, whatever the
    selection and whatever the vendor does.  They change no widget but
    the status field, which ends as one of three fixed strings. *)
Theorem gui_actions_always_return (w : world V) :
  (exists w',
     GUI.post_text api w = (Return tt, w') /\
     text_box (tk w') = text_box (tk w) /\
     api_box (tk w') = api_box (tk w) /\
     filepath (tk w') = filepath (tk w) /\
     (io_error (tk w') = "Error: no text found" \/
      io_error (tk w') = "" \/
      io_error (tk w') = "An API failed to post text")) /\
  (exists w',
     GUI.post_pic api w = (Return tt, w') /\
     text_box (tk w') = text_box (tk w) /\
     api_box (tk w') = api_box (tk w) /\
     filepath (tk w') = filepath (tk w) /\
     (io_error (tk w') = "Error: no file found" \/
      io_error (tk w') = "" \/
      io_error (tk w') = "An API failed to post a photo")).
Proof.
  split.
  - destruct (decide (typed_text w = "")) as [Htext|Htext].
    + eexists. split; [now apply post_text_blank|]. cbn. repeat apply conj; auto.
    + destruct (GUI.api_list (api_box (tk w))) as [names|e] eqn:Hsel.
      * destruct (post_text_runs api w names Htext Hsel)
          as (w' & Hrun & Htk & _).
        exists w'. split; [exact Hrun|]. rewrite Htk. cbn. repeat apply conj; auto.
      * eexists. split; [now apply post_text_unknown_row with (e := e)|].
        cbn. repeat apply conj; auto.
  - destruct (decide (filepath (tk w) = "No file uploaded")) as [Hfile|Hfile].
    + eexists. split; [now apply post_pic_no_file|]. cbn. repeat apply conj; auto.
    + destruct (GUI.api_list (api_box (tk w))) as [names|e] eqn:Hsel.
      * destruct (post_pic_runs api w names Hfile Hsel)
          as (w' & Hrun & Htk & _).
        exists w'. split; [exact Hrun|]. rewrite Htk. cbn. repeat apply conj; auto.
      * eexists. split; [now apply post_pic_unknown_row with (e := e)|].
        cbn. repeat apply conj; auto.
Qed.

(** X10. With a text typed and a selection within the rows, [post_text]
    enters the adapter once for each selected row of Twitter and for no
    other row, each time with the stripped text; so a selection without
    Twitter posts nothing, and says nothing of it. *)
Theorem post_text_posts_for_twitter_only (w : world V) :
  typed_text w <> "" ->
  selectable (api_box (tk w)) ->
  exists w',
    GUI.post_text api w = (Return tt, w') /\
    io_error (tk w') = "" /\
    adapter_calls w'
      = adapter_calls w
        ++ replicate (twitter_rows (api_box (tk w)))
                     (a_post_text (typed_text w)) /\
    vendor_calls w'
      = vendor_calls w
        ++ replicate (twitter_rows (api_box (tk w)))
                     (c_update_status (typed_text w)).
Proof.
  intros Htext Hsel.
  destruct (api_list_names _ Hsel) as (names & Hlist & _ & Hcount).
  destruct (post_text_runs api w names Htext Hlist)
    as (w' & Hrun & Htk & Hac & Hvc & _).
  exists w'. rewrite <- Hcount, Htk. repeat split; assumption.
Qed.

(** X11. The text [post_text] works on is the content of the text box
    without the whitespace around it: what is dropped at the front and at
    the back is whitespace, and what is left neither starts nor ends with
    whitespace. *)
Theorem typed_text_is_trimmed (w : world V) :
  (exists front back,
     text_box (tk w) +:+ GUI.newline = front +:+ typed_text w +:+ back /\
     Forall (fun c => isspace c = true) (chars front) /\
     Forall (fun c => isspace c = true) (chars back)) /\
  (forall c, head_char (typed_text w) = Some c -> isspace c = false) /\
  (forall c, last_char (typed_text w) = Some c -> isspace c = false).
Proof.
  unfold typed_text, strip.
  set (s := text_box (tk w) +:+ GUI.newline).
  split; [|split].
  - destruct (lstrip_split s) as (front & Hs & Hfront).
    destruct (rstrip_split (lstrip s)) as (back & Hl & Hback).
    exists front, back. split; [|split; assumption].
    now rewrite <- Hl.
  - intros c Hc. apply rstrip_head in Hc. now apply lstrip_head in Hc.
  - intros c Hc. now apply rstrip_last in Hc.
Qed.

(** X12. [post_pic] does not look at the text: with a file chosen and a
    selection within the rows it hands Twitter, once for each selected
    row of Twitter, the file and the content of the text box as Tk
    returns it, not stripped and with the newline at its end, also when
    the text box is empty. *)
Theorem post_pic_posts_raw_text (w : world V) :
  filepath (tk w) <> "No file uploaded" ->
  selectable (api_box (tk w)) ->
  exists w',
    GUI.post_pic api w = (Return tt, w') /\
    io_error (tk w') = "" /\
    vendor_calls w'
      = vendor_calls w
        ++ replicate (twitter_rows (api_box (tk w)))
                     (c_update_with_media
                        (filepath (tk w))
                        (text_box (tk w) +:+ GUI.newline)).
Proof.
  intros Hfile Hsel.
  destruct (post_pic_selected w Hfile Hsel) as (w' & Hrun & Htk & Hvc).
  exists w'. rewrite Htk. repeat split; assumption.
Qed.

(** X13. The guard of [post_pic] knows one text only.  Whatever the file
    dialog returns is stored, and unless it is the very text
    [No file uploaded], [post_pic] goes on to the vendor with it; so
    after a dialog closed without a choice, which returns the empty
    string, Twitter is handed an empty file name. *)
Theorem dialog_result_passes_guard (askopenfilename : M V string)
    (w : world V) (chosen : string) :
  askopenfilename w = (Return chosen, w) ->
  chosen <> "No file uploaded" ->
  selectable (api_box (tk w)) ->
  exists w',
    (GUI.open_file_dialog askopenfilename ;; GUI.post_pic api) w
      = (Return tt, w') /\
    filepath (tk w') = chosen /\
    io_error (tk w') = "" /\
    vendor_calls w'
      = vendor_calls w
        ++ replicate (twitter_rows (api_box (tk w)))
                     (c_update_with_media
                        chosen (text_box (tk w) +:+ GUI.newline)).
Proof.
  intros Hdialog Hchosen Hsel.
  unfold GUI.open_file_dialog, GUI.filepath_set.
  unfold bind at 1 2. rewrite Hdialog.
  unfold bind at 1, get_tk at 1, set_tk at 1.
  fold (with_filepath chosen w).
  destruct (post_pic_selected (with_filepath chosen w) Hchosen Hsel)
    as (w' & Hrun & Htk & Hvc).
  exists w'. rewrite Htk. repeat split; assumption.
Qed.

(** X14. [clear_file] puts the guard of [post_pic] back: right after it
    [post_pic] shows [Error: no file found] and posts nothing, whatever
    was chosen before. *)
Theorem clear_file_blocks_post_pic (w : world V) :
  (GUI.clear_file ;; GUI.post_pic api) w
  = (Return tt,
     with_io_error "Error: no file found"
                   (with_filepath "No file uploaded" w)).
Proof.
  unfold GUI.clear_file, GUI.filepath_set.
  unfold bind at 1 2, get_tk at 1, set_tk at 1.
  fold (with_filepath "No file uploaded" w).
  now apply post_pic_no_file.
Qed.

(** X15. [clear_comment] does not empty the text box, it puts the hint
    back; [post_text] right after it finds a text and, with a selection
    within the rows, posts the hint [Enter your comment here] once for
    each selected row of Twitter. *)
Theorem clear_comment_then_post_text (w : world V) :
  selectable (api_box (tk w)) ->
  exists w',
    (GUI.clear_comment ;; GUI.post_text api) w = (Return tt, w') /\
    io_error (tk w') = "" /\
    vendor_calls w'
      = vendor_calls w
        ++ replicate (twitter_rows (api_box (tk w)))
                     (c_update_status "Enter your comment here").
Proof.
  intros Hsel.
  unfold GUI.clear_comment. unfold bind at 1 2, get_tk at 1, set_tk at 1.
  match goal with
  | |- context [GUI.post_text api ?w0] =>
      destruct (api_list_names _ Hsel) as (names & Hlist & _ & Hcount);
      destruct (post_text_runs api w0 names) as (w' & Hrun & Htk & _ & Hvc & _);
      [vm_compute; discriminate | exact Hlist |]
  end.
  exists w'. rewrite Hrun, Htk, Hvc, <- Hcount. repeat split.
Qed.

End Actions.

Section ProfileAndCounts.

Context {V : Type} (api : API V).

(** X16. [update_bio] and [update_name] are writes without a handler:
    each makes one call of [update_profile] and hands on what that call
    does, so an exception of the vendor comes out as it is and nothing is
    printed. *)
Theorem profile_updates_propagate (message new_name : string) (w : world V) :
  Twitter.update_bio api message w
    = (fst (update_profile_description api message (vendor w)),
       called (c_update_profile_description message)
              (snd (update_profile_description api message (vendor w)))
              (entered (a_update_bio message) w)) /\
  Twitter.update_name api new_name w
    = (fst (update_profile_name api new_name (vendor w)),
       called (c_update_profile_name new_name)
              (snd (update_profile_name api new_name (vendor w)))
              (entered (a_update_name new_name) w)).
Proof.
  unfold Twitter.update_bio, Twitter.update_name. run.
  destruct (update_profile_description api message (vendor w)) as [[u|e] v1];
    destruct (update_profile_name api new_name (vendor w)) as [[u'|e'] v2];
    split; reflexivity.
Qed.

(** X17. Nothing is kept between two reads: when the vendor answers,
    [latest_favorites] and [latest_retweets] each ask for the user, then
    for the timeline of that user with count 1, then for the status at
    its head, in this order, and so does the second of them right after
    the first. *)
Theorem latest_counts_ask_again (w : world V)
    (u : user) (t : status) (ts : list status) (s : status) (v1 v2 v3 : V)
    (u' : user) (t' : status) (ts' : list status) (s' : status)
    (v4 v5 v6 : V) :
  me api (vendor w) = (Return u, v1) ->
  user_timeline api (user_id u) 1 v1 = (Return (t :: ts), v2) ->
  get_status api (status_id t) v2 = (Return s, v3) ->
  me api v3 = (Return u', v4) ->
  user_timeline api (user_id u') 1 v4 = (Return (t' :: ts'), v5) ->
  get_status api (status_id t') v5 = (Return s', v6) ->
  exists w1 w2,
    Twitter.latest_favorites api w = (Return (favorite_count s), w1) /\
    vendor_calls w1
      = vendor_calls w
        ++ [c_me; c_user_timeline (user_id u) 1; c_get_status (status_id t)] /\
    Twitter.latest_retweets api w1 = (Return (retweet_count s'), w2) /\
    vendor_calls w2
      = vendor_calls w1
        ++ [c_me; c_user_timeline (user_id u') 1;
            c_get_status (status_id t')].
Proof.
  intros Hme Htl Hst Hme' Htl' Hst'.
  unfold Twitter.latest_favorites, Twitter.latest_retweets,
         Twitter.favorites_on, Twitter.retweets_on,
         Twitter.last_tweet, Twitter.id.
  run. answered Hme. answered Htl. cbn [first]. answered Hst.
  eexists. eexists. split; [reflexivity|].
  cbn [vendor_calls vendor]. rewrite <- !app_assoc. split; [reflexivity|].
  answered Hme'. answered Htl'. cbn [first]. answered Hst'.
  split; [reflexivity|]. cbn [vendor_calls]. now rewrite <- !app_assoc.
Qed.

End ProfileAndCounts.

(** ** The logger *)

Section LogNames.

Lemma chars_replace_char (old new : ascii) (s : string) :
  chars (Logger.replace_char old new s)
  = map (fun c => if Ascii.eqb c old then new else c) (chars s).
Proof.
  induction s as [|c s IH]; [reflexivity|].
  cbn [Logger.replace_char chars map]. now rewrite IH.
Qed.

Lemma chars_now (clock : string) :
  chars (Logger.now clock) = map now_char (chars clock).
Proof.
  unfold Logger.now. rewrite !chars_replace_char, map_map.
  apply map_ext. intros c. unfold now_char.
  destruct (Ascii.eqb_spec c ":") as [->|Hc]; reflexivity.
Qed.

Lemma now_char_safe (c : ascii) :
  now_char c <> ":"%char /\ now_char c <> " "%char.
Proof.
  unfold now_char.
  destruct (Ascii.eqb_spec c ":") as [->|Hc]; [split; discriminate|].
  destruct (Ascii.eqb_spec c " ") as [->|Hs]; [split; discriminate|].
  split; assumption.
Qed.

Lemma length_chars (s : string) : length (chars s) = String.length s.
Proof. induction s as [|c s IH]; [reflexivity|]. cbn. now rewrite IH. Qed.

(** X18. Whatever the clock shows, the time stamp [make_logger] puts in
    the name of the log file has the length of the clock text, with each
    colon turned into a dash, each blank into an underscore and every
    other character kept; so a colon or a blank in the name of the log
    file can only come from the name of the logger. *)
Theorem log_name_stamp (name clock : string) :
  chars (Logger.now clock) = map now_char (chars clock) /\
  String.length (Logger.now clock) = String.length clock /\
  forall c,
    In c (chars (Logger.log_name name clock)) ->
    c = ":"%char \/ c = " "%char ->
    In c (chars name).
Proof.
  split; [apply chars_now|]. split.
  - rewrite <- !length_chars, chars_now. apply length_map.
  - intros c Hin Hc. unfold Logger.log_name in Hin.
    rewrite !chars_app, chars_now in Hin.
    rewrite !in_app_iff in Hin.
    destruct Hin as [Hin|[Hin|[Hin|Hin]]]; [exact Hin|exfalso..].
    + cbn in Hin. destruct Hc as [-> | ->]; intuition discriminate.
    + apply in_map_iff in Hin as (c0 & <- & _).
      destruct (now_char_safe c0). tauto.
    + cbn in Hin. destruct Hc as [-> | ->]; intuition discriminate.
Qed.

End LogNames.

Section LogFiles.

Context {V : Type}.
Variable makedirs : string -> M V unit.
Variable errno : exn -> Z.

(** X19. [make_log_path] leaves a path that exists alone, without a call
    of [makedirs]; on a path that does not exist it calls [makedirs] and
    swallows one failure only, an [OSError] whose [errno] is [EEXIST]:
    what it raises is an exception [makedirs] raised that is not of that
    kind. *)
Theorem make_log_path_tolerates_exists (log_path : string) (w : world V) :
  (files w !! log_path <> None ->
   Logger.make_log_path makedirs errno log_path w = (Return tt, w)) /\
  (forall w',
     files w !! log_path = None ->
     makedirs log_path w = (Return tt, w') ->
     Logger.make_log_path makedirs errno log_path w = (Return tt, w')) /\
  (forall e w',
     files w !! log_path = None ->
     makedirs log_path w = (Raise e, w') ->
     Logger.is_OSError e = true ->
     errno e = Logger.EEXIST ->
     Logger.make_log_path makedirs errno log_path w = (Return tt, w')) /\
  (forall e w',
     Logger.make_log_path makedirs errno log_path w = (Raise e, w') ->
     files w !! log_path = None /\
     makedirs log_path w = (Raise e, w') /\
     ~ (Logger.is_OSError e = true /\ errno e = Logger.EEXIST)).
Proof.
  unfold Logger.make_log_path, Logger.path_exists. run.
  repeat apply conj.
  - intros Hthere. destruct (files w !! log_path); [reflexivity|congruence].
  - intros w' -> Hmk. cbn [negb]. run. now rewrite Hmk.
  - intros e w' -> Hmk Hos Herr. cbn [negb]. run.
    rewrite Hmk, Hos, Herr. reflexivity.
  - intros e w'.
    destruct (files w !! log_path); cbn [negb]; [discriminate|]. run.
    destruct (makedirs log_path w) as [[u|e0] w0]; [discriminate|].
    destruct (Logger.is_OSError e0) eqn:Hos.
    + destruct (Z.eqb_spec (errno e0) Logger.EEXIST) as [Heq|Hne];
        cbn [negb]; [discriminate|].
      intros [= <- <-]. repeat split. intros [_ Heq]. contradiction.
    + intros [= <- <-]. repeat split. intros [Hos' _]. congruence.
Qed.

End LogFiles.

(** ** Further runs on the simulated vendor *)

Lemma selectable_others : selectable [0; 1; 2; 4; 5; 6; 7].
Proof. repeat constructor; lia. Defined.

Lemma selectable_twitter : selectable [3].
Proof. repeat constructor; lia. Defined.

(** The cursor breaks after 250 followers: two pauses, no names. *)
Lemma get_user_followers_broken_witness :
  followers Sim.api "alice" (vendor Sim.world_broken)
    = (cursor_broken Sim.crowd Sim.down_error,
       Sim.spend (vendor Sim.world_broken)) /\
  fst (Twitter.get_user_followers Sim.api "alice" Sim.world_broken)
    = Raise Sim.down_error /\
  sleeps (snd (Twitter.get_user_followers Sim.api "alice" Sim.world_broken))
    = [1; 1].
Proof.
  split; [reflexivity|].
  rewrite (get_user_followers_broken Sim.api "alice" Sim.world_broken
             Sim.crowd Sim.down_error _ eq_refl).
  split; reflexivity.
Defined.

(** Two sessions on one file, under an ASCII locale: the accent of the
    first session is not written. *)
Lemma stream_sessions_add_up_witness :
  files Sim.world0 !! Sim.session_file <> Some Dir /\
  Sim.open_fault Sim.session_file = None /\
  exists w2,
    StdOutListener.stream Sim.json_loads_accent Sim.open_fault Sim.ascii_fault
      Sim.session_file StdOutListener.listening
      ([Sim.raw_tweet; Sim.raw_accent] ++ [Sim.raw_tweet]) Sim.world0
      = (Return StdOutListener.listening, w2) /\
    StdOutListener.file_content (files w2) Sim.session_file = "hihi".
Proof.
  assert (files Sim.world0 !! Sim.session_file <> Some Dir) as Hopen
    by (vm_compute; discriminate).
  split; [exact Hopen|]. split; [reflexivity|].
  destruct (stream_sessions_add_up Sim.json_loads_accent Sim.open_fault
              Sim.ascii_fault Sim.session_file
              [Sim.raw_tweet; Sim.raw_accent] [Sim.raw_tweet]
              Sim.world0 Hopen eq_refl)
    as (w1 & w2 & _ & _ & Hrun & Hfile & _).
  exists w2. split; [exact Hrun|exact Hfile].
Defined.

(** On a new path a message that is not JSON, and one whose text the
    locale cannot encode, create an empty file; on a path without a name
    nothing is created. *)
Lemma on_data_creates_file_witness :
  files Sim.world0 !! Sim.session_file = None /\
  Sim.open_fault Sim.session_file = None /\
  files (snd (StdOutListener.on_data Sim.json_loads_accent Sim.open_fault
                Sim.ascii_fault Sim.session_file Sim.raw_garbage Sim.world0))
    !! Sim.session_file = Some (File "") /\
  files (snd (StdOutListener.on_data Sim.json_loads_accent Sim.open_fault
                Sim.ascii_fault Sim.session_file Sim.raw_accent Sim.world0))
    !! Sim.session_file = Some (File "") /\
  files (snd (StdOutListener.on_data Sim.json_loads_accent
                Sim.empty_name_fault Sim.ascii_fault "" Sim.raw_tweet
                Sim.world0))
    = files Sim.world0.
Proof.
  split; [reflexivity|]. split; [reflexivity|].
  split; [|split].
  - exact (proj1 (on_data_creates_file Sim.json_loads_accent Sim.open_fault
                    Sim.ascii_fault Sim.session_file Sim.raw_garbage
                    Sim.world0 eq_refl) eq_refl).
  - exact (proj1 (on_data_creates_file Sim.json_loads_accent Sim.open_fault
                    Sim.ascii_fault Sim.session_file Sim.raw_accent
                    Sim.world0 eq_refl) eq_refl).
  - exact (proj2 (on_data_creates_file Sim.json_loads_accent
                    Sim.empty_name_fault Sim.ascii_fault "" Sim.raw_tweet
                    Sim.world0 eq_refl) _ eq_refl).
Defined.

(** Five messages into a directory. *)
Lemma stream_into_directory_witness :
  files Sim.world_dir !! Sim.session_file = Some Dir /\
  StdOutListener.stream Sim.json_loads Sim.open_fault Sim.utf8_fault
    Sim.session_file StdOutListener.listening Sim.short_session Sim.world_dir
    = (Return StdOutListener.listening,
       printed (replicate 5
                  "Error on data [Errno 21] Is a directory: 'tweets.txt'")
               Sim.world_dir).
Proof.
  split; [reflexivity|].
  exact (stream_into_directory Sim.json_loads Sim.open_fault Sim.utf8_fault
           Sim.session_file Sim.short_session Sim.world_dir eq_refl).
Defined.

(** Seven rows selected. *)
Lemma api_iterator_selectable_witness :
  selectable (api_box (tk Sim.world_others)) /\
  exists names,
    GUI.api_iterator Sim.world_others = (Return names, Sim.world_others) /\
    Forall2 (fun code name => GUI.apis !! Z.to_nat code = Some name)
            [0; 1; 2; 4; 5; 6; 7] names.
Proof.
  split; [exact selectable_others|].
  exact (api_iterator_selectable Sim.world_others selectable_others).
Defined.

(** Twitter and a row that does not exist. *)
Lemma post_text_unknown_row_posts_nothing_witness :
  typed_text Sim.world_bad_row <> "" /\
  api_box (tk Sim.world_bad_row) = [3] ++ 8 :: [] /\
  selectable [3] /\
  ~ 0 <= 8 < 8 /\
  GUI.post_text Sim.api Sim.world_bad_row
    = (Return tt,
       with_io_error "An API failed to post text" Sim.world_bad_row).
Proof.
  assert (typed_text Sim.world_bad_row <> "") as Htext
    by (vm_compute; discriminate).
  assert (~ 0 <= 8 < 8) as Hbad by lia.
  split; [exact Htext|]. split; [reflexivity|].
  split; [exact selectable_twitter|]. split; [exact Hbad|].
  exact (proj1 (post_text_unknown_row_posts_nothing Sim.api Sim.world_bad_row
                  [3] 8 [] Htext eq_refl selectable_twitter Hbad)).
Defined.

(** Every row but Twitter: nothing is posted. *)
Lemma post_text_posts_for_twitter_only_witness :
  typed_text Sim.world_others <> "" /\
  selectable (api_box (tk Sim.world_others)) /\
  exists w',
    GUI.post_text Sim.api Sim.world_others = (Return tt, w') /\
    io_error (tk w') = "" /\
    adapter_calls w' = [] /\
    vendor_calls w' = [].
Proof.
  assert (typed_text Sim.world_others <> "") as Htext
    by (vm_compute; discriminate).
  split; [exact Htext|]. split; [exact selectable_others|].
  destruct (post_text_posts_for_twitter_only Sim.api Sim.world_others
              Htext selectable_others)
    as (w' & Hrun & Hio & Hac & Hvc).
  exists w'. split; [exact Hrun|]. split; [exact Hio|].
  split; [exact Hac|exact Hvc].
Defined.

(** The text [hello] in the box. *)
Lemma typed_text_is_trimmed_witness :
  head_char (typed_text Sim.world0) = Some "h"%char /\
  last_char (typed_text Sim.world0) = Some "o"%char /\
  isspace "h" = false /\
  isspace "o" = false.
Proof.
  destruct (typed_text_is_trimmed Sim.world0) as (_ & Hhead & Hlast).
  split; [reflexivity|]. split; [reflexivity|].
  split; [exact (Hhead _ eq_refl)|exact (Hlast _ eq_refl)].
Defined.

(** A photo with an empty text box. *)
Lemma post_pic_posts_raw_text_witness :
  filepath (tk Sim.world_photo_only) <> "No file uploaded" /\
  selectable (api_box (tk Sim.world_photo_only)) /\
  exists w',
    GUI.post_pic Sim.api Sim.world_photo_only = (Return tt, w') /\
    vendor_calls w' = [c_update_with_media "cat.jpg" GUI.newline].
Proof.
  assert (filepath (tk Sim.world_photo_only) <> "No file uploaded") as Hfile
    by (vm_compute; discriminate).
  split; [exact Hfile|]. split; [exact selectable_twitter|].
  destruct (post_pic_posts_raw_text Sim.api Sim.world_photo_only
              Hfile selectable_twitter)
    as (w' & Hrun & _ & Hvc).
  exists w'. split; [exact Hrun|exact Hvc].
Defined.

(** The dialog is closed without a choice, then the picture is posted. *)
Lemma dialog_result_passes_guard_witness :
  Sim.dialog_cancelled Sim.world0 = (Return "", Sim.world0) /\
  "" <> "No file uploaded" /\
  selectable (api_box (tk Sim.world0)) /\
  exists w',
    (GUI.open_file_dialog Sim.dialog_cancelled ;; GUI.post_pic Sim.api)
      Sim.world0 = (Return tt, w') /\
    vendor_calls w' = [c_update_with_media "" ("hello" +:+ GUI.newline)].
Proof.
  assert ("" <> "No file uploaded") as Hchosen by discriminate.
  split; [reflexivity|]. split; [exact Hchosen|].
  split; [exact selectable_twitter|].
  destruct (dialog_result_passes_guard Sim.api Sim.dialog_cancelled
              Sim.world0 "" eq_refl Hchosen selectable_twitter)
    as (w' & Hrun & _ & _ & Hvc).
  exists w'. split; [exact Hrun|exact Hvc].
Defined.

(** The comment is cleared, then posted. *)
Lemma clear_comment_then_post_text_witness :
  selectable (api_box (tk Sim.world0)) /\
  exists w',
    (GUI.clear_comment ;; GUI.post_text Sim.api) Sim.world0
      = (Return tt, w') /\
    vendor_calls w' = [c_update_status "Enter your comment here"].
Proof.
  split; [exact selectable_twitter|].
  destruct (clear_comment_then_post_text Sim.api Sim.world0
              selectable_twitter)
    as (w' & Hrun & _ & Hvc).
  exists w'. split; [exact Hrun|exact Hvc].
Defined.

(** Two reads in a row: six calls. *)
Lemma latest_counts_ask_again_witness :
  exists w1 w2,
    Twitter.latest_favorites Sim.api Sim.world0 = (Return 4, w1) /\
    Twitter.latest_retweets Sim.api w1 = (Return 2, w2) /\
    vendor_calls w2
      = [c_me; c_user_timeline 7 1; c_get_status 101;
         c_me; c_user_timeline 7 1; c_get_status 101].
Proof.
  destruct (latest_counts_ask_again Sim.api Sim.world0
              Sim.alice Sim.tweet1 [] Sim.tweet1 _ _ _
              Sim.alice Sim.tweet1 [] Sim.tweet1 _ _ _
              eq_refl eq_refl eq_refl eq_refl eq_refl eq_refl)
    as (w1 & w2 & Hfav & Hvc1 & Hret & Hvc2).
  exists w1, w2. split; [exact Hfav|]. split; [exact Hret|].
  rewrite Hvc2, Hvc1. reflexivity.
Defined.

(** A logger named [gui] at half past twelve. *)
Lemma log_name_stamp_witness :
  Logger.log_name "gui" "2019-03-01 12:30:05.123456"
    = "gui-2019-03-01_12-30-05.123456.log" /\
  (In ":"%char (chars (Logger.log_name "a:b" "12:30")) ->
   In ":"%char (chars "a:b")).
Proof.
  split; [reflexivity|].
  destruct (log_name_stamp "a:b" "12:30") as (_ & _ & Hin).
  intros H. exact (Hin ":"%char H (or_introl eq_refl)).
Defined.

(** The directory appears in between, or may not be created. *)
Lemma make_log_path_tolerates_exists_witness :
  Logger.make_log_path Sim.makedirs_raced Sim.errno_of "logs/gui" Sim.world0
    = (Return tt, Sim.world0) /\
  (Logger.make_log_path Sim.makedirs_denied Sim.errno_of "logs/gui" Sim.world0
     = (Raise (Exn OSError "[Errno 13] Permission denied: 'logs/gui'"),
        Sim.world0) ->
   Sim.makedirs_denied "logs/gui" Sim.world0
     = (Raise (Exn OSError "[Errno 13] Permission denied: 'logs/gui'"),
        Sim.world0)).
Proof.
  destruct (make_log_path_tolerates_exists Sim.makedirs_raced Sim.errno_of
              "logs/gui" Sim.world0)
    as (_ & _ & Hraced & _).
  destruct (make_log_path_tolerates_exists Sim.makedirs_denied Sim.errno_of
              "logs/gui" Sim.world0)
    as (_ & _ & _ & Hdenied).
  split.
  - exact (Hraced _ _ eq_refl eq_refl eq_refl eq_refl).
  - intros Hrun. exact (proj1 (proj2 (Hdenied _ _ Hrun))).
Defined.
